(** * Day segmentation of an actigraphy recording

    A shallow embedding of [actigraphy/io/data_import.py]: the search for
    midnights in the fine timestamp series ([get_midnights]), the day window
    with its daylight-saving correction ([_day_start_and_end_time_points],
    [_adjust_timepoint_for_daylight_savings]), the projection of the coarse
    non-wear score on the fine grid and the assembly of one day of signals
    ([get_graph_data], [_extend_data]).

    Python integers are [Z].  The samples of the ENMO and anglez columns are
    binary64 numbers, modelled by the kernel's primitive floats.  The quotient
    [3600 / window_size] of the daylight-saving correction is a Python float
    that only ever meets integers; it is modelled by an exact rational, which
    agrees with binary64 whenever the window size divides 3600 and the sample
    counts stay below 2^53.  Exceptions are values of an error monad. *)

From Stdlib Require Import ZArith List Bool Lia QArith Qround PrimFloat Sorted.
From Stdlib Require Import Permutation.
From Stdlib Require String.
Import String.StringSyntax.
Import ListNotations.
Delimit Scope string_scope with string.
Local Open Scope Z_scope.

(** ** Exceptions and the error monad *)

Inductive exception : Set :=
| IndexError
| ValueError
| ZeroDivisionError.

Inductive result (A : Type) : Type :=
| Ok (a : A)
| Raise (e : exception).

Arguments Ok {A} a.
Arguments Raise {A} e.

Definition bind {A B : Type} (m : result A) (k : A -> result B) : result B :=
  match m with
  | Ok a => k a
  | Raise e => Raise e
  end.

Notation "x <- m ;; k" := (bind m (fun x => k))
  (at level 61, m at next level, right associativity).
Notation "' pat <- m ;; k" := (bind m (fun x => match x with pat => k end))
  (at level 61, pat pattern, m at next level, right associativity).

(** ** The Python and NumPy list operations the module relies on *)

Module Py.

Section Lists.
Context {A : Type}.

(** [len(l)]. *)
Definition len (l : list A) : Z := Z.of_nat (length l).

(** [l[i]]: a negative index counts from the end; out of range raises. *)
Definition getitem (l : list A) (i : Z) : result A :=
  let j := if i <? 0 then i + len l else i in
  if (j <? 0) || (len l <=? j) then Raise IndexError
  else match nth_error l (Z.to_nat j) with
       | Some x => Ok x
       | None => Raise IndexError
       end.

(** A bound of a slice with step 1, as [slice.indices] normalises it. *)
Definition slice_bound (n : Z) (default : Z) (b : option Z) : Z :=
  match b with
  | None => default
  | Some i => if i <? 0 then Z.max (i + n) 0 else Z.min i n
  end.

(** [l[start:stop]]. *)
Definition getslice (l : list A) (start stop : option Z) : list A :=
  let lo := slice_bound (len l) 0 start in
  let hi := slice_bound (len l) (len l) stop in
  firstn (Z.to_nat (hi - lo)) (skipn (Z.to_nat lo) l).

(** The elements of [l], the head having index [k], with those whose index
    lies in [[lo, hi)] replaced by [v]. *)
Fixpoint fill (k lo hi : Z) (v : A) (l : list A) : list A :=
  match l with
  | [] => []
  | x :: t => (if (lo <=? k) && (k <? hi) then v else x) :: fill (k + 1) lo hi v t
  end.

(** [a[start:stop] = v] on a NumPy vector: the length never changes. *)
Definition setslice (l : list A) (start stop : option Z) (v : A) : list A :=
  let lo := slice_bound (len l) 0 start in
  let hi := slice_bound (len l) (len l) stop in
  fill 0 lo hi v l.

(** [itertools.pairwise(l)]. *)
Fixpoint pairwise (l : list A) : list (A * A) :=
  match l with
  | [] => []
  | a :: t =>
      match t with
      | [] => []
      | b :: _ => (a, b) :: pairwise t
      end
  end.

(** [l.index(x)] for the equality [eqb]: the first position whose element
    equals [x], counted from [k] at the head. *)
Fixpoint index_from (eqb : A -> A -> bool) (k : Z) (l : list A) (x : A) : result Z :=
  match l with
  | [] => Raise ValueError
  | y :: t => if eqb y x then Ok k else index_from eqb (k + 1) t x
  end.

Definition index (eqb : A -> A -> bool) (l : list A) (x : A) : result Z :=
  index_from eqb 0 l x.

(** [[v] * k]: empty when [k] is not positive. *)
Definition times (v : A) (k : Z) : list A := repeat v (Z.to_nat k).

End Lists.

(** [np.where(cond)[0]]: the positions, in increasing order, that satisfy
    [cond], counted from [k] at the head. *)
Fixpoint where_from {A : Type} (cond : A -> bool) (k : Z) (l : list A) : list Z :=
  match l with
  | [] => []
  | x :: t => if cond x then k :: where_from cond (k + 1) t else where_from cond (k + 1) t
  end.

Definition np_where {A : Type} (cond : A -> bool) (l : list A) : list Z :=
  where_from cond 0 l.

End Py.

(** ** Timestamps *)

(** An aware [datetime.datetime] as [strptime] with ["%Y-%m-%dT%H:%M:%S%z"]
    builds it; [utcoffset] is in seconds east of UTC. *)
Record datetime : Set := mkdatetime {
  year : Z;
  month : Z;
  day : Z;
  hour : Z;
  minute : Z;
  second : Z;
  utcoffset : Z
}.

Module Datetime.

Definition _is_leap (y : Z) : bool :=
  (y mod 4 =? 0) && (negb (y mod 100 =? 0) || (y mod 400 =? 0)).

Definition _days_before_year (y : Z) : Z :=
  let y' := y - 1 in y' * 365 + y' / 4 - y' / 100 + y' / 400.

Definition _DAYS_BEFORE_MONTH : list Z :=
  [-1; 0; 31; 59; 90; 120; 151; 181; 212; 243; 273; 304; 334].

Definition _days_before_month (y m : Z) : Z :=
  nth (Z.to_nat m) _DAYS_BEFORE_MONTH 0
  + (if (2 <? m) && _is_leap y then 1 else 0).

Definition _ymd2ord (y m d : Z) : Z :=
  _days_before_year y + _days_before_month y m + d.

Definition toordinal (t : datetime) : Z := _ymd2ord (year t) (month t) (day t).

(** Seconds between the start of year 1 and the instant [t] names, in UTC. *)
Definition instant (t : datetime) : Z :=
  toordinal t * 86400 + hour t * 3600 + minute t * 60 + second t - utcoffset t.

(** [a == b] on aware datetimes: field by field when the offsets agree,
    by UTC instant otherwise. *)
Definition eqb (a b : datetime) : bool :=
  if utcoffset a =? utcoffset b then
    (year a =? year b) && (month a =? month b) && (day a =? day b)
    && (hour a =? hour b) && (minute a =? minute b) && (second a =? second b)
  else instant a =? instant b.

End Datetime.

(** ** The recording *)

(** A row of the fine series [metashort]. *)
Record metashort_row : Set := mkrow {
  timestamp : datetime;
  ENMO : float;
  anglez : float
}.

(** What [get_metadata] returns: the fine series, the non-wear score of the
    coarse series [metalong], and the window sizes in seconds. *)
Record MetaData : Set := mkMetaData {
  metashort : list metashort_row;
  nonwearscore : list Z;
  windowsizes : list Z
}.

(** What a [file_manager] resolves to: the recording under [base_dir] and the
    number of points per day of the subject the database holds. *)
Record file_manager : Set := mkfile_manager {
  base_dir : MetaData;
  n_points_per_day : Z
}.

(** ** [get_midnights] *)

(** The parsed timestamps of the fine series ([get_time] on the timestamp
    column; parsing itself is outside this development). *)
Definition get_time (metadata_data : MetaData) : list datetime :=
  map timestamp (metashort metadata_data).

(** The comprehension of [get_midnights] over the pairs still to visit:
    [timestamps.index(date_pairs[1]) + 1] for each pair whose days of the
    month differ. *)
Fixpoint midnight_indices (timestamps : list datetime)
    (pairs : list (datetime * datetime)) : result (list Z) :=
  match pairs with
  | [] => Ok []
  | date_pairs :: rest =>
      if negb (day (fst date_pairs) =? day (snd date_pairs)) then
        i <- Py.index Datetime.eqb timestamps (snd date_pairs) ;;
        r <- midnight_indices timestamps rest ;;
        Ok (i + 1 :: r)
      else midnight_indices timestamps rest
  end.

Definition get_midnights (metadata_data : MetaData) : result (list Z) :=
  let timestamps := get_time metadata_data in
  midnight_indices timestamps (Py.pairwise timestamps).

(** ** [_adjust_timepoint_for_daylight_savings] *)

(** [a / b] on two integers: the float quotient, here exact. *)
Definition truediv (a b : Z) : result Q :=
  if b =? 0 then Raise ZeroDivisionError
  else Ok (inject_Z a / inject_Z b)%Q.

(** [n // x] for an integer [n] and a float [x]: the floor of the quotient. *)
Definition floordiv_float (n : Z) (x : Q) : result Z :=
  if Qeq_bool x 0 then Raise ZeroDivisionError
  else Ok (Qfloor (inject_Z n / x)).

(** [int(x)]: rounding toward zero. *)
Definition int (x : Q) : Z :=
  if Qle_bool 0 x then Qfloor x else Qceiling x.

Definition _adjust_timepoint_for_daylight_savings
    (start end_ window_size : Z) : result Z :=
  let day_length := end_ - start in
  samples <- truediv 3600 window_size ;;
  hours <- floordiv_float (day_length + 1) samples ;;
  end1 <- (if hours =? 25 then
             hour_of_samples <- truediv (60 * 60) window_size ;;
             Ok (end_ - int hour_of_samples)
           else Ok end_) ;;
  samples' <- truediv 3600 window_size ;;
  hours' <- floordiv_float (day_length + 1) samples' ;;
  if hours' =? 23 then
    hour_of_samples <- truediv (60 * 60) window_size ;;
    Ok (end1 + int hour_of_samples)
  else Ok end1.

(** ** [_day_start_and_end_time_points] *)

(** The parameter [day] of the source is written [day_index] throughout, to
    keep it apart from the field [day] of a timestamp. *)
Definition _day_start_and_end_time_points (fm : file_manager)
    (day_index : Z) (window_size : Z) : result (Z * option Z) :=
  midnights <- get_midnights (base_dir fm) ;;
  let target_timepoints := Some 0 :: map Some midnights ++ [None] in
  '(start, end_) <- Py.getitem (Py.pairwise target_timepoints) day_index ;;
  match start with
  | None => Raise ValueError
  | Some start =>
      match end_ with
      | Some e =>
          if e =? 0 then Ok (start, end_)
          else
            time_day_ends <- _adjust_timepoint_for_daylight_savings start e window_size ;;
            Ok (start, Some time_day_ends)
      | None => Ok (start, end_)
      end
  end.

(** ** [_extend_data] *)

Definition _extend_data {A : Type} (data : list A) (extension : list A)
    (action : option String.string) : result (list A) :=
  match action with
  | Some a =>
      if String.eqb a "prepend"%string then Ok (extension ++ data)
      else if String.eqb a "append"%string then Ok (data ++ extension)
      else Raise ValueError
  | None => Ok data
  end.

(** ** [get_graph_data] *)

(** [a // b] on two integers. *)
Definition floordiv (a b : Z) : result Z :=
  if b =? 0 then Raise ZeroDivisionError else Ok (a / b).

(** The non-wear vector of [get_graph_data] (lines 131 to 141): zeros on the
    fine grid, then ones on [[index, index + window_size_ratio)] for every
    position [index] of the coarse series whose score exceeds 1. *)
Definition project_nonwear (coarse_scores : list Z) (window_size_ratio : Z)
    (fine_length : Z) : list Z :=
  let nonwear := Py.times 0 fine_length in
  let nonwear_elements := Py.np_where (fun score => 1 <? score) coarse_scores in
  fold_left
    (fun nonwear index =>
       Py.setslice nonwear (Some index) (Some (index + window_size_ratio)) 1)
    nonwear_elements nonwear.

(** The padding direction chosen from the day window. *)
Definition padding_action (time_day_starts : Z) (time_day_ends : option Z)
    : option String.string :=
  if time_day_starts =? 0 then Some "prepend"%string
  else match time_day_ends with
       | None => Some "append"%string
       | Some _ => None
       end.

(** The zeros of [extension] are Python integers in the three lists; in the
    two lists of floats they are written as the float zero, which divides and
    subtracts as the integer does. *)
Definition get_graph_data (fm : file_manager) (day_index : Z)
    : result (list float * list float * list Z) :=
  let metadata_data := base_dir fm in
  let enmo := map ENMO (metashort metadata_data) in
  let anglez := map anglez (metashort metadata_data) in
  ws1 <- Py.getitem (windowsizes metadata_data) 1 ;;
  ws0 <- Py.getitem (windowsizes metadata_data) 0 ;;
  ratio <- floordiv ws1 ws0 ;;
  let window_size_ratio := ratio - 1 in
  let nonwear :=
    project_nonwear (nonwearscore metadata_data) window_size_ratio (Py.len enmo) in
  window_size <- Py.getitem (windowsizes metadata_data) 0 ;;
  '(time_day_starts, time_day_ends) <-
    _day_start_and_end_time_points fm day_index window_size ;;
  let acc :=
    map (fun v => abs (v * 1000))%float
        (Py.getslice enmo (Some time_day_starts) time_day_ends) in
  let ang := Py.getslice anglez (Some time_day_starts) time_day_ends in
  let non_wear := Py.getslice nonwear (Some time_day_starts) time_day_ends in
  let padding_count := n_points_per_day fm - Py.len acc in
  let action := padding_action time_day_starts time_day_ends in
  acc <- _extend_data acc (Py.times 0%float padding_count) action ;;
  ang <- _extend_data ang (Py.times 0%float padding_count) action ;;
  non_wear_list <- _extend_data non_wear (Py.times 0 padding_count) action ;;
  let acc := map (fun value => value / 14 - 210)%float acc in
  Ok (acc, ang, non_wear_list).

(** ** [_get_data_file] and [get_timezone] *)

(** [name] ends with [suffix]. *)
Definition ends_with (suffix name : String.string) : bool :=
  let n := String.length name in
  let m := String.length suffix in
  (m <=? n)%nat && String.eqb (String.substring (n - m) m name) suffix.

(** [data_sub_dir.glob("*.RData")] on a directory given by the names of its
    entries, in the order the file system lists them (names are compared
    case sensitively, as on POSIX systems). *)
Definition glob_RData (data_sub_dir : list String.string) : list String.string :=
  filter (ends_with ".RData"%string) data_sub_dir.

Definition _get_data_file (data_sub_dir : list String.string)
    : result String.string :=
  let data_files := glob_RData data_sub_dir in
  if Py.len data_files =? 1 then Py.getitem data_files 0
  else Raise ValueError.

(** The [tzinfo] of the first timestamp, given by its offset in seconds. *)
Definition get_timezone (fm : file_manager) : result Z :=
  first <- Py.getitem (get_time (base_dir fm)) 0 ;;
  Ok (utcoffset first).

(** ** Notions the statements are written with *)

(** No two timestamps of the series are equal (Python's [==]). *)
Definition pairwise_distinct (timestamps : list datetime) : Prop :=
  forall (i j : nat) (a b : datetime),
    (i < j)%nat ->
    nth_error timestamps i = Some a ->
    nth_error timestamps j = Some b ->
    Datetime.eqb a b = false.

(** A decision procedure for [pairwise_distinct]. *)
Fixpoint all_distinct (timestamps : list datetime) : bool :=
  match timestamps with
  | [] => true
  | a :: t => forallb (fun b => negb (Datetime.eqb a b)) t && all_distinct t
  end.

(** The index of the second element of every adjacent pair whose days of the
    month differ, the head of [l] having index [k]: the sequence the
    specification describes for the midnights. *)
Fixpoint day_changes (k : Z) (l : list datetime) : list Z :=
  match l with
  | [] => []
  | a :: t =>
      match t with
      | [] => []
      | b :: _ =>
          if negb (day a =? day b) then k + 1 :: day_changes (k + 1) t
          else day_changes (k + 1) t
      end
  end.

(** The conversion of a magnitude sample to plotting units. *)
Definition rescale (v : float) : float := (abs (v * 1000) / 14 - 210)%float.

(** The fine index [k] is covered by a coarse position whose score exceeds 1. *)
Definition covered (coarse_scores : list Z) (ratio : Z) (k : Z) : Prop :=
  exists (i : nat) (score : Z),
    nth_error coarse_scores i = Some score /\ 1 < score
    /\ Z.of_nat i <= k < Z.of_nat i + ratio.

(** The window sizes hold at least the fine and the coarse one, and the fine
    one is not zero. *)
Definition has_window_sizes (metadata_data : MetaData) (ws0 ws1 : Z) : Prop :=
  exists rest, windowsizes metadata_data = ws0 :: ws1 :: rest /\ ws0 <> 0.

(** The three slices of a day window, before padding and rescaling. *)
Definition enmo_slice (fm : file_manager) (start : Z) (stop : option Z) : list float :=
  Py.getslice (map ENMO (metashort (base_dir fm))) (Some start) stop.

Definition anglez_slice (fm : file_manager) (start : Z) (stop : option Z) : list float :=
  Py.getslice (map anglez (metashort (base_dir fm))) (Some start) stop.

Definition nonwear_slice (fm : file_manager) (ws0 ws1 : Z) (start : Z)
    (stop : option Z) : list Z :=
  Py.getslice
    (project_nonwear (nonwearscore (base_dir fm)) (ws1 / ws0 - 1)
       (Py.len (map ENMO (metashort (base_dir fm)))))
    (Some start) stop.

(** The number of zeros a day of the given slice is extended by (none when
    the count is not positive). *)
Definition padding_count (fm : file_manager) (start : Z) (stop : option Z) : Z :=
  n_points_per_day fm - Py.len (enmo_slice fm start stop).

(** A day window is a boundary window when it starts the recording or runs
    to its end. *)
Definition boundary_window (start : Z) (stop : option Z) : bool :=
  (start =? 0) || match stop with None => true | Some _ => false end.

(** The zeros put before and after the slice of a day window. *)
Definition zeros_before (fm : file_manager) (start : Z) (stop : option Z) : Z :=
  if start =? 0 then padding_count fm start stop else 0.

Definition zeros_after (fm : file_manager) (start : Z) (stop : option Z) : Z :=
  if start =? 0 then 0
  else match stop with
       | None => padding_count fm start stop
       | Some _ => 0
       end.

(** A list between [before] and [after] copies of [zero]. *)
Definition padded {A : Type} (zero : A) (before after : Z) (l : list A) : list A :=
  Py.times zero before ++ l ++ Py.times zero after.

(** The binary64 number nearest to 0.21. *)
Definition sample_0_21 : float := 0x1.ae147ae147ae1p-3%float.

(** The magnitude slices of the first [days] day windows, in order. *)
Fixpoint day_slices_from (fm : file_manager) (window_size : Z) (day_index : Z)
    (days : nat) : result (list (list float)) :=
  match days with
  | O => Ok []
  | S days' =>
      '(start, stop) <- _day_start_and_end_time_points fm day_index window_size ;;
      rest <- day_slices_from fm window_size (day_index + 1) days' ;;
      Ok (enmo_slice fm start stop :: rest)
  end.

(** Every element of the vector is a flag, 0 or 1. *)
Definition flags (l : list Z) : Prop := Forall (fun v => v = 0 \/ v = 1) l.

(** [day_index] is in the range that list indexing accepts for a recording
    with the given midnights. *)
Definition in_range (midnights : list Z) (day_index : Z) : Prop :=
  - (Py.len midnights + 1) <= day_index < Py.len midnights + 1.

(** ** Recordings used as examples *)

Module Examples.

Definition at_ (d h m s : Z) : datetime := mkdatetime 2023 1 d h m s 0.

(** Three samples, five seconds apart, around one midnight. *)
Definition around_midnight : MetaData :=
  mkMetaData
    [mkrow (at_ 1 23 59 55) 0.875%float 1%float;
     mkrow (at_ 2 0 0 0) (-3.5)%float 2%float;
     mkrow (at_ 2 0 0 5) 1.75%float 3%float]
    [0; 2; 0] [5; 15; 3600].

(** Seven samples over three calendar days: two on the first day, three on
    the second and two on the third. *)
Definition three_days : MetaData :=
  mkMetaData
    [mkrow (at_ 1 23 59 50) 0.875%float 1%float;
     mkrow (at_ 1 23 59 55) (-3.5)%float 2%float;
     mkrow (at_ 2 0 0 0) 1.75%float 3%float;
     mkrow (at_ 2 0 0 5) 0.4375%float 4%float;
     mkrow (at_ 2 23 59 55) 7%float 5%float;
     mkrow (at_ 3 0 0 0) 0.21875%float 6%float;
     mkrow (at_ 3 0 0 5) 14%float 7%float]
    [0; 2; 0] [5; 15; 3600].

(** Two samples within one calendar day. *)
Definition single_day : MetaData :=
  mkMetaData
    [mkrow (at_ 1 12 0 0) 0.875%float 1%float;
     mkrow (at_ 1 12 0 5) 1.75%float 2%float]
    [2] [5; 15; 3600].

(** A recording without samples. *)
Definition no_samples : MetaData := mkMetaData [] [2] [5; 15; 3600].

(** The entries of a directory that holds one data file. *)
Definition one_data_file : list String.string :=
  ["notes.txt"; "meta_subject.RData"; "subject.RData.bak"]%string.

End Examples.

(** * Properties *)

(** ** The error monad and the list operations *)

Lemma bind_Ok {A B : Type} (m : result A) (k : A -> result B) (b : B) :
  bind m k = Ok b -> exists a, m = Ok a /\ k a = Ok b.
Proof.
  destruct m as [a|e]; simpl; intros H; [exists a; auto | discriminate].
Qed.

Lemma len_nonneg {A : Type} (l : list A) : 0 <= Py.len l.
Proof. unfold Py.len; lia. Qed.

Lemma len_cons {A : Type} (x : A) (l : list A) : Py.len (x :: l) = Py.len l + 1.
Proof. unfold Py.len; simpl length; lia. Qed.

Lemma len_app {A : Type} (l1 l2 : list A) :
  Py.len (l1 ++ l2) = Py.len l1 + Py.len l2.
Proof. unfold Py.len; rewrite length_app; lia. Qed.

Lemma len_map {A B : Type} (f : A -> B) (l : list A) : Py.len (map f l) = Py.len l.
Proof. unfold Py.len; now rewrite length_map. Qed.

Lemma len_times {A : Type} (v : A) (k : Z) : Py.len (Py.times v k) = Z.max 0 k.
Proof. unfold Py.len, Py.times; rewrite repeat_length; lia. Qed.

(** ** Timestamps and [get_midnights] *)

Lemma datetime_eqb_refl (a : datetime) : Datetime.eqb a a = true.
Proof.
  unfold Datetime.eqb; rewrite !Z.eqb_refl; reflexivity.
Qed.

(** [index] returns the position of an element that no earlier one equals. *)
Lemma index_from_first (l : list datetime) :
  forall (k : Z) (n : nat) (x : datetime),
    nth_error l n = Some x ->
    (forall m y, (m < n)%nat -> nth_error l m = Some y -> Datetime.eqb y x = false) ->
    Py.index_from Datetime.eqb k l x = Ok (k + Z.of_nat n).
Proof.
  induction l as [|y l IH]; intros k n x Hn Hbefore.
  - destruct n; discriminate.
  - destruct n as [|n]; simpl in *.
    + injection Hn as ->. rewrite datetime_eqb_refl. f_equal; lia.
    + rewrite (Hbefore 0%nat y) by (simpl; auto; lia).
      rewrite (IH (k + 1) n x Hn).
      * f_equal; lia.
      * intros m z Hm Hz. apply (Hbefore (S m) z); [lia | exact Hz].
Qed.

(** [index] always finds an element of the list. *)
Lemma index_from_total (l : list datetime) :
  forall (k : Z) (x : datetime),
    In x l -> exists i, Py.index_from Datetime.eqb k l x = Ok i.
Proof.
  induction l as [|y l IH]; intros k x Hin; [destruct Hin|].
  simpl. destruct (Datetime.eqb y x) eqn:E; [eauto|].
  destruct Hin as [->|Hin]; [rewrite datetime_eqb_refl in E; discriminate|].
  apply IH, Hin.
Qed.

Lemma pairwise_In {A : Type} (l : list A) (a b : A) :
  In (a, b) (Py.pairwise l) -> In a l /\ In b l.
Proof.
  induction l as [|x l IH]; simpl; [tauto|].
  destruct l as [|y l]; [simpl; tauto|].
  intros [H|H].
  - injection H as -> ->. simpl; auto.
  - destruct (IH H) as [Ha Hb]. split; right; assumption.
Qed.

Lemma midnight_indices_total (timestamps : list datetime) :
  forall pairs,
    (forall a b, In (a, b) pairs -> In b timestamps) ->
    exists ms, midnight_indices timestamps pairs = Ok ms.
Proof.
  induction pairs as [|[a b] pairs IH]; intros Hin; simpl; [eauto|].
  destruct IH as [ms Hms]; [intros; eapply Hin; right; eauto|].
  destruct (negb (day a =? day b)); [|eauto].
  destruct (index_from_total timestamps 0 b) as [i Hi]; [eapply Hin; left; eauto|].
  unfold Py.index. rewrite Hi, Hms. simpl. eauto.
Qed.

Lemma get_midnights_total (metadata_data : MetaData) :
  exists ms, get_midnights metadata_data = Ok ms.
Proof.
  unfold get_midnights. apply midnight_indices_total.
  intros a b H. apply pairwise_In in H. tauto.
Qed.

(** On distinct timestamps the comprehension yields the day changes, each
    moved one sample further. *)
Lemma midnight_indices_suffix (suffix : list datetime) :
  forall prefix,
    pairwise_distinct (prefix ++ suffix) ->
    midnight_indices (prefix ++ suffix) (Py.pairwise suffix)
    = Ok (map Z.succ (day_changes (Py.len prefix) suffix)).
Proof.
  induction suffix as [|a suffix IH]; intros prefix Hd; [reflexivity|].
  destruct suffix as [|b t]; [reflexivity|].
  change (Py.pairwise (a :: b :: t)) with ((a, b) :: Py.pairwise (b :: t)).
  assert (Hstep : midnight_indices (prefix ++ a :: b :: t) (Py.pairwise (b :: t))
                  = Ok (map Z.succ (day_changes (Py.len prefix + 1) (b :: t)))).
  { replace (prefix ++ a :: b :: t) with ((prefix ++ [a]) ++ b :: t)
      by (rewrite <- app_assoc; reflexivity).
    rewrite IH.
    - rewrite len_app. reflexivity.
    - rewrite <- app_assoc. exact Hd. }
  cbn [midnight_indices day_changes fst snd].
  destruct (negb (day a =? day b)); [|exact Hstep].
  unfold Py.index.
  rewrite (index_from_first _ 0 (S (length prefix)) b).
  - rewrite Hstep. simpl. unfold Py.len. do 3 f_equal. lia.
  - rewrite nth_error_app2 by lia.
    replace (S (length prefix) - length prefix)%nat with 1%nat by lia. reflexivity.
  - intros m y Hm Hy. apply (Hd m (S (length prefix)) y b); [lia | exact Hy |].
    rewrite nth_error_app2 by lia.
    replace (S (length prefix) - length prefix)%nat with 1%nat by lia. reflexivity.
Qed.

Lemma day_changes_In (l : list datetime) :
  forall k i,
    In i (day_changes k l) <->
    exists (n : nat) (a b : datetime),
      i = k + Z.of_nat n + 1 /\ nth_error l n = Some a
      /\ nth_error l (S n) = Some b /\ day a <> day b.
Proof.
  induction l as [|a l IH]; intros k i.
  - simpl. split; [tauto|]. intros (n & x & y & _ & H & _). destruct n; discriminate.
  - destruct l as [|b t].
    + simpl. split; [tauto|]. intros (n & x & y & _ & _ & H & _).
      destruct n as [|[|n]]; discriminate.
    + cbn [day_changes]. specialize (IH (k + 1) i).
      assert (Hshift :
        (exists (n : nat) (x y : datetime),
            i = k + Z.of_nat n + 1 /\ nth_error (a :: b :: t) n = Some x
            /\ nth_error (a :: b :: t) (S n) = Some y /\ day x <> day y)
        <-> (i = k + 1 /\ day a <> day b) \/ In i (day_changes (k + 1) (b :: t))).
      { rewrite IH. split.
        - intros (n & x & y & Hi & Hx & Hy & Hxy). destruct n as [|n].
          + left. simpl in Hx, Hy. injection Hx as ->. injection Hy as ->.
            split; [lia | exact Hxy].
          + right. exists n, x, y. repeat split; auto; lia.
        - intros [[Hi Hab] | (n & x & y & Hi & Hx & Hy & Hxy)].
          + exists 0%nat, a, b. repeat split; auto; lia.
          + exists (S n), x, y. repeat split; auto; lia. }
      rewrite Hshift.
      destruct (day a =? day b) eqn:E; simpl.
      * apply Z.eqb_eq in E. tauto.
      * apply Z.eqb_neq in E. intuition.
Qed.

Lemma day_changes_above (l : list datetime) :
  forall k, Forall (fun i => k < i) (day_changes k l).
Proof.
  induction l as [|a l IH]; intros k; [constructor|].
  destruct l as [|b t]; [constructor|].
  cbn [day_changes]. specialize (IH (k + 1)).
  assert (H : Forall (fun i => k < i) (day_changes (k + 1) (b :: t))).
  { eapply Forall_impl; [|exact IH]. simpl; intros; lia. }
  destruct (negb (day a =? day b)); [constructor; [lia | exact H] | exact H].
Qed.

Lemma day_changes_sorted (l : list datetime) :
  forall k, StronglySorted Z.lt (day_changes k l).
Proof.
  induction l as [|a l IH]; intros k; [constructor|].
  destruct l as [|b t]; [constructor|].
  cbn [day_changes].
  destruct (negb (day a =? day b)); [|apply IH].
  constructor; [apply IH | exact (day_changes_above (b :: t) (k + 1))].
Qed.

Lemma succ_sorted (l : list Z) :
  StronglySorted Z.lt l -> StronglySorted Z.lt (map Z.succ l).
Proof.
  induction 1 as [|x l Hs IH Hx]; simpl; constructor; [exact IH|].
  rewrite Forall_map. eapply Forall_impl; [|exact Hx]. simpl; intros; lia.
Qed.

Lemma all_distinct_sound (l : list datetime) :
  all_distinct l = true -> pairwise_distinct l.
Proof.
  induction l as [|x l IH]; intros H i j a b Hij Hi Hj.
  - destruct i; discriminate.
  - simpl in H. apply andb_prop in H as [Hx Hl].
    destruct j as [|j]; [lia|]. simpl in Hj.
    destruct i as [|i]; simpl in Hi.
    + injection Hi as ->. rewrite forallb_forall in Hx.
      specialize (Hx b (nth_error_In _ _ Hj)).
      now apply negb_true_iff in Hx.
    + apply (IH Hl i j a b); [lia | assumption | assumption].
Qed.

(** C1, as amended: on pairwise distinct timestamps [get_midnights] returns a
    strictly increasing sequence that holds, for each adjacent pair of fine
    samples whose days of the month differ, exactly the index of the second
    sample of the pair plus one.  An index [i] is returned if and only if the
    samples [i - 2] and [i - 1] exist and differ in their day. *)
Theorem get_midnights_one_past_day_change (metadata_data : MetaData) :
  pairwise_distinct (get_time metadata_data) ->
  exists ms,
    get_midnights metadata_data = Ok ms
    /\ StronglySorted Z.lt ms
    /\ forall i,
        In i ms <->
        2 <= i /\ exists a b,
          nth_error (get_time metadata_data) (Z.to_nat (i - 2)) = Some a
          /\ nth_error (get_time metadata_data) (Z.to_nat (i - 1)) = Some b
          /\ day a <> day b.
Proof.
  intros Hd. unfold get_midnights.
  pose proof (midnight_indices_suffix (get_time metadata_data) [] Hd) as H.
  simpl app in H. change (Py.len []) with 0 in H.
  exists (map Z.succ (day_changes 0 (get_time metadata_data))).
  split; [exact H|]. split; [apply succ_sorted, day_changes_sorted|].
  intros i. rewrite in_map_iff. split.
  - intros (j & <- & Hj). apply day_changes_In in Hj.
    destruct Hj as (n & a & b & -> & Ha & Hb & Hab).
    split; [lia|]. exists a, b.
    replace (Z.to_nat (Z.succ (0 + Z.of_nat n + 1) - 2)) with n by lia.
    replace (Z.to_nat (Z.succ (0 + Z.of_nat n + 1) - 1)) with (S n) by lia.
    auto.
  - intros (Hi & a & b & Ha & Hb & Hab). exists (i - 1). split; [lia|].
    apply day_changes_In. exists (Z.to_nat (i - 2)), a, b.
    replace (S (Z.to_nat (i - 2))) with (Z.to_nat (i - 1)) by lia.
    repeat split; auto; lia.
Qed.

Lemma get_midnights_one_past_day_change_witness :
  pairwise_distinct (get_time Examples.around_midnight)
  /\ exists ms,
      get_midnights Examples.around_midnight = Ok ms
      /\ StronglySorted Z.lt ms
      /\ forall i,
          In i ms <->
          2 <= i /\ exists a b,
            nth_error (get_time Examples.around_midnight) (Z.to_nat (i - 2)) = Some a
            /\ nth_error (get_time Examples.around_midnight) (Z.to_nat (i - 1)) = Some b
            /\ day a <> day b.
Proof.
  assert (H : pairwise_distinct (get_time Examples.around_midnight))
    by (apply all_distinct_sound; reflexivity).
  split; [exact H|].
  exact (get_midnights_one_past_day_change Examples.around_midnight H).
Defined.

(** C1 as stated fails: in a recording of three distinct samples whose day
    changes between samples 0 and 1, the second element of the pair has
    index 1, yet [get_midnights] returns 2, and sample 2 is of the same day
    as sample 1. *)
Lemma get_midnights_not_the_second_element :
  pairwise_distinct (get_time Examples.around_midnight)
  /\ map day (get_time Examples.around_midnight) = [1; 2; 2]
  /\ day_changes 0 (get_time Examples.around_midnight) = [1]
  /\ get_midnights Examples.around_midnight = Ok [2].
Proof.
  split; [apply all_distinct_sound; reflexivity|].
  repeat split; reflexivity.
Qed.

(** ** The daylight-saving correction *)

Lemma truediv_Ok (a b : Z) :
  b <> 0 -> truediv a b = Ok (inject_Z a / inject_Z b)%Q.
Proof.
  intros H. unfold truediv. apply Z.eqb_neq in H. now rewrite H.
Qed.

Lemma samples_nonzero (window_size : Z) :
  window_size <> 0 -> Qeq_bool (inject_Z 3600 / inject_Z window_size) 0 = false.
Proof.
  intros H. destruct window_size as [|p|p]; [congruence| |]; reflexivity.
Qed.

Lemma floor_of_samples (n window_size : Z) :
  0 < window_size ->
  Qfloor (inject_Z n / (inject_Z 3600 / inject_Z window_size))
  = (n * window_size) / 3600.
Proof.
  intros H. destruct window_size as [|p|p]; try lia. reflexivity.
Qed.

Lemma int_of_samples (window_size : Z) :
  0 < window_size -> int (inject_Z 3600 / inject_Z window_size) = 3600 / window_size.
Proof.
  intros H. destruct window_size as [|p|p]; try lia. reflexivity.
Qed.

(** The two tests of the correction read the same day length, so they exclude
    each other. *)
Lemma adjust_timepoint_unfold (start end_ window_size : Z) :
  window_size <> 0 ->
  _adjust_timepoint_for_daylight_savings start end_ window_size
  = Ok (let samples_per_hour := (inject_Z 3600 / inject_Z window_size)%Q in
        let hours := Qfloor (inject_Z (end_ - start + 1) / samples_per_hour) in
        if hours =? 25 then end_ - int samples_per_hour
        else if hours =? 23 then end_ + int samples_per_hour
        else end_).
Proof.
  intros H. unfold _adjust_timepoint_for_daylight_savings.
  change (60 * 60) with 3600.
  rewrite (truediv_Ok 3600 window_size H). cbn [bind].
  unfold floordiv_float. rewrite (samples_nonzero window_size H). cbn [bind].
  cbv zeta.
  destruct (Qfloor _ =? 25) eqn:E25; cbn [bind].
  - apply Z.eqb_eq in E25. rewrite E25. reflexivity.
  - destruct (Qfloor _ =? 23); reflexivity.
Qed.

Lemma adjust_timepoint_total (start end_ window_size : Z) :
  window_size <> 0 ->
  exists e, _adjust_timepoint_for_daylight_savings start end_ window_size = Ok e.
Proof.
  intros H. rewrite (adjust_timepoint_unfold _ _ _ H). eauto.
Qed.

(** When the window size divides the hour, the correction is integer
    arithmetic on the number [s] of samples per hour. *)
Lemma adjust_timepoint_whole_hours (start end_ window_size s : Z) :
  0 < window_size -> 3600 = s * window_size ->
  _adjust_timepoint_for_daylight_savings start end_ window_size
  = Ok (let hours := (end_ - start + 1) / s in
        if hours =? 25 then end_ - s
        else if hours =? 23 then end_ + s
        else end_).
Proof.
  intros Hw Hs. rewrite adjust_timepoint_unfold by lia. cbv zeta.
  rewrite floor_of_samples, int_of_samples by exact Hw.
  rewrite Hs. rewrite Z.div_mul_cancel_r, Z.div_mul by nia.
  reflexivity.
Qed.



(** C5: for a positive window size that divides 3600 the correction is
    idempotent: it returns a value, and correcting that value again for the
    same start leaves it unchanged. *)
Theorem adjust_timepoint_idempotent (start end_ window_size : Z) :
  0 < window_size -> (window_size | 3600) ->
  exists corrected,
    _adjust_timepoint_for_daylight_savings start end_ window_size = Ok corrected
    /\ _adjust_timepoint_for_daylight_savings start corrected window_size
       = Ok corrected.
Proof.
  intros Hw [s Hs].
  assert (Hpos : 0 < s) by nia.
  rewrite (adjust_timepoint_whole_hours start end_ window_size s Hw Hs).
  cbv zeta. eexists. split; [reflexivity|].
  rewrite (adjust_timepoint_whole_hours _ _ window_size s Hw Hs). cbv zeta.
  destruct ((end_ - start + 1) / s =? 25) eqn:E25.
  - apply Z.eqb_eq in E25.
    replace (end_ - s - start + 1) with (end_ - start + 1 + (-1) * s) by lia.
    rewrite Z.div_add by lia. rewrite E25. reflexivity.
  - destruct ((end_ - start + 1) / s =? 23) eqn:E23.
    + apply Z.eqb_eq in E23.
      replace (end_ + s - start + 1) with (end_ - start + 1 + 1 * s) by lia.
      rewrite Z.div_add by lia. rewrite E23. reflexivity.
    + rewrite E25, E23. reflexivity.
Qed.

Lemma adjust_timepoint_idempotent_witness :
  0 < 5 /\ (5 | 3600)
  /\ exists corrected,
      _adjust_timepoint_for_daylight_savings 0 (23 * 720) 5 = Ok corrected
      /\ _adjust_timepoint_for_daylight_savings 0 corrected 5 = Ok corrected.
Proof.
  split; [lia|]. split; [exists 720; reflexivity|].
  exact (adjust_timepoint_idempotent 0 (23 * 720) 5
           ltac:(lia) (ex_intro _ 720 eq_refl)).
Defined.

(** ** The projection of the non-wear score *)

Lemma fill_length {A : Type} (v : A) (lo hi : Z) (l : list A) :
  forall k, length (Py.fill k lo hi v l) = length l.
Proof.
  induction l as [|x l IH]; intros k; simpl; [reflexivity|]. now rewrite IH.
Qed.

Lemma fill_nth_error {A : Type} (v : A) (lo hi : Z) (l : list A) :
  forall k j,
    nth_error (Py.fill k lo hi v l) j
    = option_map
        (fun x => if (lo <=? k + Z.of_nat j) && (k + Z.of_nat j <? hi) then v else x)
        (nth_error l j).
Proof.
  induction l as [|x l IH]; intros k j.
  - destruct j; reflexivity.
  - destruct j as [|j]; simpl.
    + now rewrite Z.add_0_r.
    + rewrite IH. replace (k + 1 + Z.of_nat j) with (k + Z.pos (Pos.of_succ_nat j)) by lia.
      reflexivity.
Qed.

Lemma setslice_length {A : Type} (v : A) (l : list A) (start stop : option Z) :
  length (Py.setslice l start stop v) = length l.
Proof. unfold Py.setslice. apply fill_length. Qed.

(** Assigning to [[i : i + r]] with [i] and [r] not negative changes exactly
    the positions of the vector that lie in [[i, i + r)]. *)
Lemma setslice_nth_error {A : Type} (v : A) (l : list A) (i r : Z) (j : nat) :
  0 <= i -> 0 <= r ->
  nth_error (Py.setslice l (Some i) (Some (i + r)) v) j
  = option_map
      (fun x => if (i <=? Z.of_nat j) && (Z.of_nat j <? i + r) then v else x)
      (nth_error l j).
Proof.
  intros Hi Hr. unfold Py.setslice. rewrite fill_nth_error.
  destruct (nth_error l j) as [x|] eqn:E; [|reflexivity].
  assert (Hj : (j < length l)%nat) by (apply nth_error_Some; congruence).
  simpl. f_equal. unfold Py.slice_bound, Py.len.
  destruct (i <? 0) eqn:E1; [apply Z.ltb_lt in E1; lia|].
  destruct (i + r <? 0) eqn:E2; [apply Z.ltb_lt in E2; lia|].
  replace (Z.min i (Z.of_nat (length l)) <=? Z.of_nat j)
    with (i <=? Z.of_nat j)
    by (destruct (Z.leb_spec i (Z.of_nat j)); symmetry;
        [apply Z.leb_le | apply Z.leb_gt]; lia).
  replace (Z.of_nat j <? Z.min (i + r) (Z.of_nat (length l)))
    with (Z.of_nat j <? i + r)
    by (destruct (Z.ltb_spec (Z.of_nat j) (i + r)); symmetry;
        [apply Z.ltb_lt | apply Z.ltb_ge]; lia).
  reflexivity.
Qed.

Lemma where_from_In {A : Type} (cond : A -> bool) (l : list A) :
  forall k i,
    In i (Py.where_from cond k l) <->
    exists (n : nat) (x : A),
      i = k + Z.of_nat n /\ nth_error l n = Some x /\ cond x = true.
Proof.
  induction l as [|y l IH]; intros k i.
  - simpl. split; [tauto|]. intros (n & x & _ & H & _). destruct n; discriminate.
  - assert (Hrest :
      In i (Py.where_from cond (k + 1) l) <->
      exists (n : nat) (x : A),
        i = k + Z.of_nat (S n) /\ nth_error (y :: l) (S n) = Some x /\ cond x = true).
    { rewrite IH. split; intros (n & x & Hi & Hx & Hc); exists n, x;
        (repeat split; [lia | exact Hx | exact Hc]). }
    simpl Py.where_from. destruct (cond y) eqn:E.
    + simpl In. rewrite Hrest. split.
      * intros [<- | (n & x & H)]; [exists 0%nat, y; simpl; repeat split; auto; lia|].
        exists (S n), x. exact H.
      * intros (n & x & Hi & Hx & Hc). destruct n as [|n].
        -- left. lia.
        -- right. exists n, x. auto.
    + rewrite Hrest. split.
      * intros (n & x & H). exists (S n), x. exact H.
      * intros (n & x & Hi & Hx & Hc). destruct n as [|n].
        -- simpl in Hx. injection Hx as ->. congruence.
        -- exists n, x. auto.
Qed.

(** After the loop of assignments, a position holds 1 when one of the
    visited indices covers it, and what it held before otherwise. *)
Lemma nonwear_loop_nth_error (r : Z) (indices : list Z) :
  0 <= r -> Forall (fun i => 0 <= i) indices ->
  forall (nonwear : list Z) (j : nat),
    nth_error
      (fold_left
         (fun nonwear index =>
            Py.setslice nonwear (Some index) (Some (index + r)) 1)
         indices nonwear) j
    = option_map
        (fun x =>
           if existsb (fun i => (i <=? Z.of_nat j) && (Z.of_nat j <? i + r)) indices
           then 1 else x)
        (nth_error nonwear j).
Proof.
  intros Hr Hall. induction Hall as [|i indices Hi Hall IH]; intros nonwear j.
  - simpl. now destruct (nth_error nonwear j).
  - simpl fold_left. rewrite IH, setslice_nth_error by assumption.
    destruct (nth_error nonwear j) as [x|]; [|reflexivity].
    simpl. f_equal.
    destruct ((i <=? Z.of_nat j) && (Z.of_nat j <? i + r)); simpl.
    + now destruct (existsb _ indices).
    + reflexivity.
Qed.

Lemma nonwear_loop_length (r : Z) (indices : list Z) :
  forall nonwear : list Z,
    length
      (fold_left
         (fun nonwear index =>
            Py.setslice nonwear (Some index) (Some (index + r)) 1)
         indices nonwear)
    = length nonwear.
Proof.
  induction indices as [|i indices IH]; intros nonwear; simpl; [reflexivity|].
  rewrite IH. apply setslice_length.
Qed.

Lemma project_nonwear_length (coarse_scores : list Z) (ratio fine_length : Z) :
  Py.len (project_nonwear coarse_scores ratio fine_length) = Z.max 0 fine_length.
Proof.
  unfold project_nonwear, Py.len. rewrite nonwear_loop_length.
  apply (len_times 0 fine_length).
Qed.

Lemma project_nonwear_nth_error (coarse_scores : list Z) (ratio fine_length k : Z) :
  0 <= ratio -> 0 <= k < fine_length ->
  (covered coarse_scores ratio k ->
   nth_error (project_nonwear coarse_scores ratio fine_length) (Z.to_nat k) = Some 1)
  /\ (~ covered coarse_scores ratio k ->
      nth_error (project_nonwear coarse_scores ratio fine_length) (Z.to_nat k) = Some 0).
Proof.
  intros Hr Hk. unfold project_nonwear.
  rewrite nonwear_loop_nth_error; [|exact Hr|].
  2:{ apply Forall_forall. intros i Hi. apply where_from_In in Hi.
      destruct Hi as (n & x & -> & _). lia. }
  assert (Hzero : nth_error (Py.times 0 fine_length) (Z.to_nat k) = Some 0).
  { unfold Py.times. rewrite nth_error_repeat by lia. reflexivity. }
  rewrite Hzero. simpl option_map. rewrite Z2Nat.id by lia.
  destruct (existsb _ _) eqn:E.
  - split; [reflexivity|]. intros Hnot. exfalso. apply Hnot.
    apply existsb_exists in E. destruct E as (i & Hin & Hi).
    apply where_from_In in Hin. destruct Hin as (n & score & -> & Hn & Hs).
    apply andb_prop in Hi as [H1 H2].
    apply Z.leb_le in H1. apply Z.ltb_lt in H2. apply Z.ltb_lt in Hs.
    exists n, score. repeat split; auto; lia.
  - split; [|reflexivity]. intros (n & score & Hn & Hs & Hlo & Hhi). exfalso.
    assert (Hex : existsb
                    (fun i => (i <=? k) && (k <? i + ratio))
                    (Py.np_where (fun score => 1 <? score) coarse_scores) = true).
    { apply existsb_exists. exists (Z.of_nat n). split.
      - apply where_from_In. exists n, score. repeat split; auto.
        now apply Z.ltb_lt.
      - apply andb_true_intro. split; [apply Z.leb_le | apply Z.ltb_lt]; lia. }
    congruence.
Qed.

(** C6, as amended: for a ratio that is not negative, [project_nonwear]
    produces a vector of length [fine_length] (none when it is negative) that
    is 1 at every fine index of [[i, i + ratio)] for a coarse index [i] whose
    score exceeds 1, and 0 at every other index; for the coarse scores
    [0, 2, 0], ratio 2 and fine length 6 the vector is [0, 1, 1, 0, 0, 0]. *)
Theorem project_nonwear_covers (coarse_scores : list Z) (ratio fine_length : Z) :
  0 <= ratio ->
  Py.len (project_nonwear coarse_scores ratio fine_length) = Z.max 0 fine_length
  /\ (forall k,
        0 <= k < fine_length ->
        (covered coarse_scores ratio k ->
         nth_error (project_nonwear coarse_scores ratio fine_length) (Z.to_nat k)
         = Some 1)
        /\ (~ covered coarse_scores ratio k ->
            nth_error (project_nonwear coarse_scores ratio fine_length) (Z.to_nat k)
            = Some 0))
  /\ project_nonwear [0; 2; 0] 2 6 = [0; 1; 1; 0; 0; 0].
Proof.
  intros Hr. split; [apply project_nonwear_length|]. split; [|reflexivity].
  intros k Hk. now apply project_nonwear_nth_error.
Qed.

Lemma project_nonwear_covers_witness :
  0 <= 2
  /\ Py.len (project_nonwear [0; 2; 0] 2 6) = Z.max 0 6
  /\ (forall k,
        0 <= k < 6 ->
        (covered [0; 2; 0] 2 k ->
         nth_error (project_nonwear [0; 2; 0] 2 6) (Z.to_nat k) = Some 1)
        /\ (~ covered [0; 2; 0] 2 k ->
            nth_error (project_nonwear [0; 2; 0] 2 6) (Z.to_nat k) = Some 0))
  /\ project_nonwear [0; 2; 0] 2 6 = [0; 1; 1; 0; 0; 0].
Proof.
  split; [lia|]. exact (project_nonwear_covers [0; 2; 0] 2 6 ltac:(lia)).
Defined.

(** C6 as stated fails on its own example: the coarse scores [0, 2, 0] with
    ratio 2 and fine length 6 project to [0, 1, 1, 0, 0, 0], the fine indices
    1 and 2, and not to [0, 0, 1, 1, 0, 0]. *)
Lemma project_nonwear_example_differs :
  project_nonwear [0; 2; 0] 2 6 = [0; 1; 1; 0; 0; 0]
  /\ project_nonwear [0; 2; 0] 2 6 <> [0; 0; 1; 1; 0; 0].
Proof.
  split; [reflexivity | discriminate].
Qed.

(** ** The day window *)

Lemma pairwise_length {A : Type} (l : list A) :
  length (Py.pairwise l) = pred (length l).
Proof.
  induction l as [|a l IH]; [reflexivity|].
  destruct l as [|b t]; [reflexivity|].
  change (Py.pairwise (a :: b :: t)) with ((a, b) :: Py.pairwise (b :: t)).
  simpl length in *. now rewrite IH.
Qed.

Lemma pairwise_nth_error {A : Type} (l : list A) :
  forall (i : nat) (a b : A),
    nth_error (Py.pairwise l) i = Some (a, b) ->
    nth_error l i = Some a /\ nth_error l (S i) = Some b.
Proof.
  induction l as [|x l IH]; intros i a b H.
  - destruct i; discriminate.
  - destruct l as [|y t]; [destruct i; discriminate|].
    change (Py.pairwise (x :: y :: t)) with ((x, y) :: Py.pairwise (y :: t)) in H.
    destruct i as [|i].
    + injection H as -> ->. split; reflexivity.
    + apply (IH i a b H).
Qed.

Lemma getitem_out_of_range {A : Type} (l : list A) (i : Z) :
  i < - Py.len l \/ Py.len l <= i -> Py.getitem l i = Raise IndexError.
Proof.
  intros H. unfold Py.getitem. pose proof (len_nonneg l) as Hl.
  destruct (i <? 0) eqn:E; [apply Z.ltb_lt in E | apply Z.ltb_ge in E].
  - assert (E1 : (i + Py.len l <? 0) = true) by (apply Z.ltb_lt; lia).
    rewrite E1. reflexivity.
  - assert (E1 : (Py.len l <=? i) = true) by (apply Z.leb_le; lia).
    rewrite E1. now rewrite orb_true_r.
Qed.

Lemma getitem_negative {A : Type} (l : list A) (i : Z) :
  - Py.len l <= i < 0 -> Py.getitem l i = Py.getitem l (i + Py.len l).
Proof.
  intros H. unfold Py.getitem.
  assert (E1 : (i <? 0) = true) by (apply Z.ltb_lt; lia).
  assert (E2 : (i + Py.len l <? 0) = false) by (apply Z.ltb_ge; lia).
  cbv zeta. rewrite E1, E2. cbv iota. rewrite E2. reflexivity.
Qed.

Lemma getitem_in_range {A : Type} (l : list A) (i : Z) :
  0 <= i < Py.len l ->
  exists x, nth_error l (Z.to_nat i) = Some x /\ Py.getitem l i = Ok x.
Proof.
  intros H. unfold Py.getitem.
  assert (E1 : (i <? 0) = false) by (apply Z.ltb_ge; lia).
  assert (E2 : (Py.len l <=? i) = false) by (apply Z.leb_gt; lia).
  cbv zeta. rewrite E1. cbv iota. rewrite E1, E2. simpl. destruct (nth_error l (Z.to_nat i)) as [x|] eqn:E; [eauto|].
  apply nth_error_None in E. unfold Py.len in H. lia.
Qed.

Lemma getitem_Ok {A : Type} (l : list A) (i : Z) (x : A) :
  Py.getitem l i = Ok x ->
  let j := if i <? 0 then i + Py.len l else i in
  0 <= j < Py.len l /\ nth_error l (Z.to_nat j) = Some x.
Proof.
  unfold Py.getitem. cbv zeta. intros H.
  destruct ((_ <? 0) || _) eqn:E; [discriminate|].
  apply orb_false_elim in E as [E1 E2].
  apply Z.ltb_ge in E1. apply Z.leb_gt in E2.
  split; [lia|]. destruct (nth_error l _); [congruence | discriminate].
Qed.

(** The boundaries [[0, *midnights, None]] that the day windows pair up. *)
Lemma target_timepoints_length (midnights : list Z) :
  Py.len (Py.pairwise (Some 0 :: map Some midnights ++ [None]))
  = Py.len midnights + 1.
Proof.
  unfold Py.len. rewrite pairwise_length. simpl length.
  rewrite length_app, length_map. simpl. lia.
Qed.

Lemma target_timepoints_nth_error (midnights : list Z) (j : nat) (x : option Z) :
  nth_error (Some 0 :: map Some midnights ++ [None]) j = Some x ->
  match x with
  | Some v => nth_error (0 :: midnights) j = Some v
  | None => j = S (length midnights)
  end.
Proof.
  change (Some 0 :: map Some midnights ++ [None])
    with (map Some (0 :: midnights) ++ [None]).
  intros H.
  destruct (Nat.lt_ge_cases j (length (map Some (0 :: midnights)))) as [Hj|Hj].
  - rewrite nth_error_app1 in H by exact Hj. rewrite nth_error_map in H.
    destruct (nth_error (0 :: midnights) j); simpl in H; [|discriminate].
    injection H as <-. reflexivity.
  - rewrite nth_error_app2 in H by exact Hj. rewrite length_map in *.
    simpl length in *.
    destruct (j - S (length midnights))%nat as [|m] eqn:E; simpl in H.
    + injection H as <-. lia.
    + destruct m; discriminate.
Qed.

(** What a returned window is, in terms of the midnights. *)
Lemma day_window_inv (fm : file_manager) (day_index window_size : Z)
    (midnights : list Z) (start : Z) (stop : option Z) :
  get_midnights (base_dir fm) = Ok midnights ->
  _day_start_and_end_time_points fm day_index window_size = Ok (start, stop) ->
  let j := if day_index <? 0 then day_index + (Py.len midnights + 1) else day_index in
  0 <= j <= Py.len midnights
  /\ nth_error (0 :: midnights) (Z.to_nat j) = Some start
  /\ (j = Py.len midnights <-> stop = None).
Proof.
  intros Hm H. unfold _day_start_and_end_time_points in H.
  rewrite Hm in H. cbn [bind] in H.
  apply bind_Ok in H as ([s e] & Hget & H).
  apply getitem_Ok in Hget. rewrite target_timepoints_length in Hget.
  cbv zeta in *. destruct Hget as [Hj Hnth].
  set (j := if day_index <? 0 then day_index + (Py.len midnights + 1) else day_index) in *.
  apply pairwise_nth_error in Hnth as [Hs He].
  apply target_timepoints_nth_error in Hs, He.
  destruct s as [s|]; [|discriminate].
  assert (Hstart : s = start).
  { destruct e as [e|]; [destruct (e =? 0)|]; try congruence.
    apply bind_Ok in H as (x & _ & H). congruence. }
  subst s. split; [lia|]. split; [exact Hs|].
  destruct e as [e|].
  - simpl in He. split.
    + intros Hlast.
      assert (Hlt : (Z.to_nat j < length midnights)%nat)
        by (apply nth_error_Some; congruence).
      unfold Py.len in Hlast. lia.
    + intros Hstop. destruct (e =? 0) eqn:E0.
      * congruence.
      * apply bind_Ok in H as (x & _ & H). congruence.
  - split.
    + intros _. congruence.
    + intros _. unfold Py.len. unfold Py.len in Hj. lia.
Qed.

Lemma day_window_total (fm : file_manager) (day_index window_size : Z)
    (midnights : list Z) :
  get_midnights (base_dir fm) = Ok midnights ->
  window_size <> 0 ->
  - (Py.len midnights + 1) <= day_index < Py.len midnights + 1 ->
  exists start stop,
    _day_start_and_end_time_points fm day_index window_size = Ok (start, stop).
Proof.
  intros Hm Hw Hday. unfold _day_start_and_end_time_points.
  rewrite Hm. cbn [bind].
  set (pairs := Py.pairwise (Some 0 :: map Some midnights ++ [None])).
  assert (Hlen : Py.len pairs = Py.len midnights + 1)
    by apply target_timepoints_length.
  assert (Hget : exists j x, (j <= length midnights)%nat
                             /\ nth_error pairs j = Some x
                             /\ Py.getitem pairs day_index = Ok x).
  { destruct (Z.lt_ge_cases day_index 0) as [Hneg|Hpos].
    - rewrite getitem_negative by lia.
      destruct (getitem_in_range pairs (day_index + Py.len pairs)) as (x & Hx & Hg);
        [lia|].
      exists (Z.to_nat (day_index + Py.len pairs)), x.
      unfold Py.len in *. repeat split; auto; lia.
    - destruct (getitem_in_range pairs day_index) as (x & Hx & Hg); [lia|].
      exists (Z.to_nat day_index), x.
      unfold Py.len in *. repeat split; auto; lia. }
  destruct Hget as (j & [s e] & Hj & Hnth & ->). cbn [bind].
  apply pairwise_nth_error in Hnth as [Hs _].
  apply target_timepoints_nth_error in Hs.
  destruct s as [s|]; [|lia].
  destruct e as [e|]; [|eauto].
  destruct (e =? 0); [eauto|].
  destruct (adjust_timepoint_total s e window_size Hw) as [e' ->].
  cbn [bind]. eauto.
Qed.

(** C3, as amended: with [days] the number of day windows (one more than the
    midnights), [_day_start_and_end_time_points] raises [IndexError] for every
    [day_index >= days] and every [day_index < - days]; a negative
    [day_index >= - days] counts from the last day and yields the window of
    day [day_index + days]; and every [day_index] of [[- days, days)] yields a
    window when the window size is not zero. *)
Theorem day_window_index_range (fm : file_manager) :
  exists midnights,
    get_midnights (base_dir fm) = Ok midnights
    /\ forall day_index window_size,
        let days := Py.len midnights + 1 in
        (day_index < - days \/ days <= day_index ->
         _day_start_and_end_time_points fm day_index window_size
         = Raise IndexError)
        /\ (- days <= day_index < 0 ->
            _day_start_and_end_time_points fm day_index window_size
            = _day_start_and_end_time_points fm (day_index + days) window_size)
        /\ (- days <= day_index < days -> window_size <> 0 ->
            exists start stop,
              _day_start_and_end_time_points fm day_index window_size
              = Ok (start, stop)).
Proof.
  destruct (get_midnights_total (base_dir fm)) as [midnights Hm].
  exists midnights. split; [exact Hm|].
  intros day_index window_size days.
  pose proof (target_timepoints_length midnights) as Hlen. fold days in Hlen.
  split; [|split].
  - intros Hout. unfold _day_start_and_end_time_points.
    rewrite Hm. cbn [bind].
    rewrite getitem_out_of_range by (rewrite Hlen; exact Hout). reflexivity.
  - intros Hneg. unfold _day_start_and_end_time_points.
    rewrite Hm. cbn [bind].
    rewrite getitem_negative by (rewrite Hlen; exact Hneg).
    rewrite Hlen. reflexivity.
  - intros Hin Hw. now apply (day_window_total fm day_index window_size midnights).
Qed.

(** C3 as stated fails for a negative index: in the recording of three days
    the index -1 does not fail, it yields the window of the last day. *)
Lemma day_window_negative_index_wraps :
  get_midnights Examples.three_days = Ok [3; 6]
  /\ _day_start_and_end_time_points
       (mkfile_manager Examples.three_days 4) (-1) 5
     = Ok (6, None).
Proof.
  split; reflexivity.
Qed.

(** ** The assembly of a day *)

Lemma getslice_length {A B : Type} (l1 : list A) (l2 : list B)
    (start stop : option Z) :
  length l1 = length l2 ->
  Py.len (Py.getslice l1 start stop) = Py.len (Py.getslice l2 start stop).
Proof.
  intros H. unfold Py.getslice, Py.len.
  rewrite !length_firstn, !length_skipn, H. reflexivity.
Qed.

Lemma rescale_slice (l : list float) :
  map (fun value => value / 14 - 210)%float
      (map (fun v => abs (v * 1000))%float l)
  = map rescale l.
Proof. rewrite map_map. reflexivity. Qed.

Lemma rescale_zeros (k : Z) :
  map (fun value => value / 14 - 210)%float (Py.times 0%float k)
  = Py.times (-210)%float k.
Proof. unfold Py.times. rewrite map_repeat. reflexivity. Qed.

(** The three slices of a day window have the same length. *)
Lemma slices_same_length (fm : file_manager) (ws0 ws1 start : Z) (stop : option Z) :
  Py.len (anglez_slice fm start stop) = Py.len (enmo_slice fm start stop)
  /\ Py.len (nonwear_slice fm ws0 ws1 start stop) = Py.len (enmo_slice fm start stop).
Proof.
  unfold anglez_slice, enmo_slice, nonwear_slice. split.
  - apply getslice_length. now rewrite !length_map.
  - apply getslice_length. apply Nat2Z.inj.
    change (Py.len (project_nonwear (nonwearscore (base_dir fm)) (ws1 / ws0 - 1)
                      (Py.len (map ENMO (metashort (base_dir fm)))))
            = Py.len (map ENMO (metashort (base_dir fm)))).
    rewrite project_nonwear_length.
    pose proof (len_nonneg (map ENMO (metashort (base_dir fm)))). lia.
Qed.

Lemma times_zero {A : Type} (v : A) : Py.times v 0 = [].
Proof. reflexivity. Qed.

Lemma len_padded {A : Type} (zero : A) (before after : Z) (l : list A) :
  Py.len (padded zero before after l) = Z.max 0 before + Py.len l + Z.max 0 after.
Proof.
  unfold padded. rewrite !len_app, !len_times. lia.
Qed.

(** Once the window is known, [get_graph_data] returns the three slices, the
    magnitude rescaled, between the zeros the window calls for. *)
Lemma get_graph_data_padded (fm : file_manager) (day_index ws0 ws1 : Z)
    (start : Z) (stop : option Z) :
  has_window_sizes (base_dir fm) ws0 ws1 ->
  _day_start_and_end_time_points fm day_index ws0 = Ok (start, stop) ->
  get_graph_data fm day_index
  = Ok (padded (-210)%float (zeros_before fm start stop) (zeros_after fm start stop)
          (map rescale (enmo_slice fm start stop)),
        padded 0%float (zeros_before fm start stop) (zeros_after fm start stop)
          (anglez_slice fm start stop),
        padded 0 (zeros_before fm start stop) (zeros_after fm start stop)
          (nonwear_slice fm ws0 ws1 start stop)).
Proof.
  intros (rest & Hws & Hw0) Hwin. unfold get_graph_data.
  rewrite Hws.
  assert (H1 : Py.getitem (ws0 :: ws1 :: rest) 1 = Ok ws1).
  { destruct (getitem_in_range (ws0 :: ws1 :: rest) 1) as (x & Hx & ->).
    - rewrite !len_cons. pose proof (len_nonneg rest). lia.
    - simpl in Hx. congruence. }
  assert (H0 : Py.getitem (ws0 :: ws1 :: rest) 0 = Ok ws0).
  { destruct (getitem_in_range (ws0 :: ws1 :: rest) 0) as (x & Hx & ->).
    - rewrite !len_cons. pose proof (len_nonneg rest). lia.
    - simpl in Hx. congruence. }
  rewrite H1, H0. cbn [bind].
  unfold floordiv. apply Z.eqb_neq in Hw0 as Hw0'. rewrite Hw0'. cbn [bind].
  rewrite Hwin. cbn [bind]. rewrite len_map.
  fold (enmo_slice fm start stop) (anglez_slice fm start stop).
  change (Py.getslice
            (project_nonwear (nonwearscore (base_dir fm)) (ws1 / ws0 - 1)
               (Py.len (map ENMO (metashort (base_dir fm)))))
            (Some start) stop)
    with (nonwear_slice fm ws0 ws1 start stop).
  fold (padding_count fm start stop).
  unfold zeros_before, zeros_after, padding_action, padded, _extend_data.
  destruct (start =? 0).
  - cbn [String.eqb Ascii.eqb Bool.eqb bind].
    rewrite map_app, rescale_zeros, rescale_slice.
    rewrite !times_zero, !app_nil_r. reflexivity.
  - destruct stop as [e|].
    + cbn [bind]. rewrite rescale_slice, !times_zero, !app_nil_r. reflexivity.
    + cbn [String.eqb Ascii.eqb Bool.eqb bind].
      rewrite map_app, rescale_zeros, rescale_slice. reflexivity.
Qed.

Lemma times_nonpos {A : Type} (v : A) (k : Z) : k <= 0 -> Py.times v k = [].
Proof.
  intros H. unfold Py.times. replace (Z.to_nat k) with 0%nat by lia. reflexivity.
Qed.

Lemma padded_nonpos {A : Type} (zero : A) (before after : Z) (l : list A) :
  before <= 0 -> after <= 0 -> padded zero before after l = l.
Proof.
  intros Hb Ha. unfold padded. rewrite !times_nonpos by assumption.
  apply app_nil_r.
Qed.

Lemma three_days_window_sizes :
  has_window_sizes Examples.three_days 5 15.
Proof. exists [3600]. split; [reflexivity | discriminate]. Qed.

(** C2, as amended: for an interior day (a window with [start > 0] and an end
    that is not [None]) [get_graph_data] raises nothing and applies no
    padding: whatever [n_points_per_day] is, it returns the three slices of
    the window, the magnitude rescaled, at the length of the slice. *)
Theorem get_graph_data_interior_day (fm : file_manager) (day_index ws0 ws1 : Z)
    (start stop : Z) :
  has_window_sizes (base_dir fm) ws0 ws1 ->
  _day_start_and_end_time_points fm day_index ws0 = Ok (start, Some stop) ->
  0 < start ->
  get_graph_data fm day_index
  = Ok (map rescale (enmo_slice fm start (Some stop)),
        anglez_slice fm start (Some stop),
        nonwear_slice fm ws0 ws1 start (Some stop)).
Proof.
  intros Hws Hwin Hstart.
  rewrite (get_graph_data_padded fm day_index ws0 ws1 start (Some stop) Hws Hwin).
  unfold zeros_before, zeros_after.
  assert (E : (start =? 0) = false) by (apply Z.eqb_neq; lia).
  rewrite E. rewrite !padded_nonpos by lia. reflexivity.
Qed.

Lemma get_graph_data_interior_day_witness :
  has_window_sizes Examples.three_days 5 15
  /\ _day_start_and_end_time_points
       (mkfile_manager Examples.three_days 3) 1 5 = Ok (3, Some 6)
  /\ 0 < 3
  /\ get_graph_data (mkfile_manager Examples.three_days 3) 1
     = Ok ([(-178.75)%float; 290%float; (-194.375)%float],
           [4%float; 5%float; 6%float], [0; 0; 0]).
Proof.
  split; [exact three_days_window_sizes|]. split; [reflexivity|].
  split; [lia|].
  exact (get_graph_data_interior_day (mkfile_manager Examples.three_days 3)
           1 5 15 3 6 three_days_window_sizes eq_refl ltac:(lia)).
Defined.

(** C2 as stated fails: day 1 of the recording of three days is interior and
    its slice holds 3 samples; with 4 points per day [get_graph_data] raises
    nothing and returns the 3 samples. *)
Lemma get_graph_data_interior_mismatch_returns :
  _day_start_and_end_time_points
    (mkfile_manager Examples.three_days 4) 1 5 = Ok (3, Some 6)
  /\ Py.len (enmo_slice (mkfile_manager Examples.three_days 4) 3 (Some 6)) = 3
  /\ n_points_per_day (mkfile_manager Examples.three_days 4) = 4
  /\ get_graph_data (mkfile_manager Examples.three_days 4) 1
     = Ok ([(-178.75)%float; 290%float; (-194.375)%float],
           [4%float; 5%float; 6%float], [0; 0; 0]).
Proof.
  repeat split; reflexivity.
Qed.

(** C7: every magnitude sample [v] of the day slice is returned as
    [|v * 1000| / 14 - 210], in its place between the padding, while the
    angle and the non-wear samples of the slice are returned as they are;
    the binary64 number nearest to 0.21 is returned as -195.0. *)
Theorem get_graph_data_rescales_magnitude (fm : file_manager)
    (day_index ws0 ws1 : Z) (start : Z) (stop : option Z) :
  has_window_sizes (base_dir fm) ws0 ws1 ->
  _day_start_and_end_time_points fm day_index ws0 = Ok (start, stop) ->
  (exists before after,
      get_graph_data fm day_index
      = Ok (padded (-210)%float before after
              (map (fun v => abs (v * 1000) / 14 - 210)%float
                   (enmo_slice fm start stop)),
            padded 0%float before after (anglez_slice fm start stop),
            padded 0 before after (nonwear_slice fm ws0 ws1 start stop)))
  /\ (abs (sample_0_21 * 1000) / 14 - 210)%float = (-195)%float.
Proof.
  intros Hws Hwin. split; [|reflexivity].
  exists (zeros_before fm start stop), (zeros_after fm start stop).
  exact (get_graph_data_padded fm day_index ws0 ws1 start stop Hws Hwin).
Qed.

Lemma get_graph_data_rescales_magnitude_witness :
  has_window_sizes Examples.three_days 5 15
  /\ _day_start_and_end_time_points
       (mkfile_manager Examples.three_days 4) 0 5 = Ok (0, Some 3)
  /\ (exists before after,
         get_graph_data (mkfile_manager Examples.three_days 4) 0
         = Ok (padded (-210)%float before after
                 (map (fun v => abs (v * 1000) / 14 - 210)%float
                      (enmo_slice (mkfile_manager Examples.three_days 4) 0 (Some 3))),
               padded 0%float before after
                 (anglez_slice (mkfile_manager Examples.three_days 4) 0 (Some 3)),
               padded 0 before after
                 (nonwear_slice (mkfile_manager Examples.three_days 4) 5 15 0 (Some 3))))
  /\ (abs (sample_0_21 * 1000) / 14 - 210)%float = (-195)%float.
Proof.
  split; [exact three_days_window_sizes|]. split; [reflexivity|].
  exact (get_graph_data_rescales_magnitude (mkfile_manager Examples.three_days 4)
           0 5 15 0 (Some 3) three_days_window_sizes eq_refl).
Defined.

(** C8, as amended: for every valid day index [get_graph_data] returns three
    sequences of one common length, which is the larger of [n_points_per_day]
    and the length of the slice when the window starts the recording or runs
    to its end (hence exactly [n_points_per_day] when such a day is not
    longer than that), and the length of the slice for an interior day. *)
Theorem get_graph_data_lengths (fm : file_manager) (day_index ws0 ws1 : Z)
    (midnights : list Z) :
  has_window_sizes (base_dir fm) ws0 ws1 ->
  get_midnights (base_dir fm) = Ok midnights ->
  0 <= day_index <= Py.len midnights ->
  exists start stop acc ang non_wear_list,
    _day_start_and_end_time_points fm day_index ws0 = Ok (start, stop)
    /\ get_graph_data fm day_index = Ok (acc, ang, non_wear_list)
    /\ let slice_length := Py.len (enmo_slice fm start stop) in
       let returned_length :=
         if boundary_window start stop
         then Z.max (n_points_per_day fm) slice_length
         else slice_length in
       Py.len acc = returned_length
       /\ Py.len ang = returned_length
       /\ Py.len non_wear_list = returned_length.
Proof.
  intros Hws Hm Hday.
  assert (Hw0 : ws0 <> 0) by (destruct Hws as (rest & _ & H); exact H).
  destruct (day_window_total fm day_index ws0 midnights Hm Hw0) as (start & stop & Hwin);
    [lia|].
  exists start, stop. do 3 eexists. split; [exact Hwin|].
  split; [exact (get_graph_data_padded fm day_index ws0 ws1 start stop Hws Hwin)|].
  cbv zeta. rewrite !len_padded, len_map.
  destruct (slices_same_length fm ws0 ws1 start stop) as [-> ->].
  assert (Hlen :
    Z.max 0 (zeros_before fm start stop) + Py.len (enmo_slice fm start stop)
    + Z.max 0 (zeros_after fm start stop)
    = if boundary_window start stop
      then Z.max (n_points_per_day fm) (Py.len (enmo_slice fm start stop))
      else Py.len (enmo_slice fm start stop)).
  { unfold zeros_before, zeros_after, boundary_window, padding_count.
    destruct (start =? 0); simpl; [lia|].
    destruct stop; lia. }
  rewrite Hlen. auto.
Qed.

Lemma get_graph_data_lengths_witness :
  has_window_sizes Examples.three_days 5 15
  /\ get_midnights Examples.three_days = Ok [3; 6]
  /\ 0 <= 2 <= Py.len [3; 6]
  /\ exists start stop acc ang non_wear_list,
      _day_start_and_end_time_points (mkfile_manager Examples.three_days 4) 2 5
      = Ok (start, stop)
      /\ get_graph_data (mkfile_manager Examples.three_days 4) 2
         = Ok (acc, ang, non_wear_list)
      /\ let slice_length :=
           Py.len (enmo_slice (mkfile_manager Examples.three_days 4) start stop) in
         let returned_length :=
           if boundary_window start stop
           then Z.max (n_points_per_day (mkfile_manager Examples.three_days 4))
                  slice_length
           else slice_length in
         Py.len acc = returned_length
         /\ Py.len ang = returned_length
         /\ Py.len non_wear_list = returned_length.
Proof.
  split; [exact three_days_window_sizes|]. split; [reflexivity|].
  split; [unfold Py.len; simpl; lia|].
  exact (get_graph_data_lengths (mkfile_manager Examples.three_days 4) 2 5 15 [3; 6]
           three_days_window_sizes eq_refl
           ltac:(unfold Py.len; simpl; lia)).
Defined.

(** C8 as stated fails: day 0 of the recording of three days is valid and its
    slice holds 3 samples; with 1 point per day the three sequences returned
    hold 3 samples each. *)
Lemma get_graph_data_length_differs :
  get_midnights Examples.three_days = Ok [3; 6]
  /\ n_points_per_day (mkfile_manager Examples.three_days 1) = 1
  /\ get_graph_data (mkfile_manager Examples.three_days 1) 0
     = Ok ([(-147.5)%float; 40%float; (-85)%float],
           [1%float; 2%float; 3%float], [0; 1; 1]).
Proof.
  repeat split; reflexivity.
Qed.

(** C9, as amended: day 0 has a window with [start = 0], the last day a
    window whose end is [None]; a window with [start = 0] has its zeros
    prepended; a window whose end is [None] has them appended provided its
    start is not 0, that is, provided the last day is not day 0 as well.  A
    recording of a single day, where both hold, has its zeros prepended. *)
Theorem get_graph_data_padding_direction (fm : file_manager)
    (day_index ws0 ws1 : Z) (midnights : list Z) (start : Z) (stop : option Z) :
  has_window_sizes (base_dir fm) ws0 ws1 ->
  get_midnights (base_dir fm) = Ok midnights ->
  _day_start_and_end_time_points fm day_index ws0 = Ok (start, stop) ->
  let zeros := padding_count fm start stop in
  (day_index = 0 -> start = 0)
  /\ (day_index = Py.len midnights -> stop = None)
  /\ (start = 0 ->
      get_graph_data fm day_index
      = Ok (Py.times (-210)%float zeros ++ map rescale (enmo_slice fm start stop),
            Py.times 0%float zeros ++ anglez_slice fm start stop,
            Py.times 0 zeros ++ nonwear_slice fm ws0 ws1 start stop))
  /\ (start <> 0 -> stop = None ->
      get_graph_data fm day_index
      = Ok (map rescale (enmo_slice fm start stop) ++ Py.times (-210)%float zeros,
            anglez_slice fm start stop ++ Py.times 0%float zeros,
            nonwear_slice fm ws0 ws1 start stop ++ Py.times 0 zeros)).
Proof.
  intros Hws Hm Hwin zeros.
  pose proof (day_window_inv fm day_index ws0 midnights start stop Hm Hwin) as Hinv.
  cbv zeta in Hinv. destruct Hinv as (Hj & Hstart & Hstop).
  pose proof (get_graph_data_padded fm day_index ws0 ws1 start stop Hws Hwin) as Hg.
  unfold padded, zeros_before, zeros_after in Hg. fold zeros in Hg.
  split; [|split; [|split]].
  - intros ->. simpl in Hstart. congruence.
  - intros Hlast. apply Hstop.
    pose proof (len_nonneg midnights) as Hn.
    assert (E : (day_index <? 0) = false) by (apply Z.ltb_ge; lia).
    rewrite E. exact Hlast.
  - intros ->. rewrite Hg. simpl. rewrite !times_zero, !app_nil_r. reflexivity.
  - intros Hne ->. rewrite Hg.
    assert (E : (start =? 0) = false) by (apply Z.eqb_neq; exact Hne).
    rewrite E. rewrite !times_zero. reflexivity.
Qed.

Lemma get_graph_data_padding_direction_witness :
  has_window_sizes Examples.three_days 5 15
  /\ get_midnights Examples.three_days = Ok [3; 6]
  /\ _day_start_and_end_time_points
       (mkfile_manager Examples.three_days 4) 2 5 = Ok (6, None)
  /\ get_graph_data (mkfile_manager Examples.three_days 4) 2
     = Ok ([790%float; (-210)%float; (-210)%float; (-210)%float],
           [7%float; 0%float; 0%float; 0%float], [0; 0; 0; 0]).
Proof.
  split; [exact three_days_window_sizes|]. split; [reflexivity|].
  split; [reflexivity|].
  exact (proj2 (proj2 (proj2
           (get_graph_data_padding_direction
              (mkfile_manager Examples.three_days 4) 2 5 15 [3; 6] 6 None
              three_days_window_sizes eq_refl eq_refl)))
           ltac:(discriminate) eq_refl).
Defined.

(** C9 as stated fails for a recording of a single day: its only window has
    [start = 0] and its end is [None]; day 0 is the last day, and its two
    zeros are put before the two samples, not after them. *)
Lemma get_graph_data_single_day_prepends :
  get_midnights Examples.single_day = Ok []
  /\ _day_start_and_end_time_points
       (mkfile_manager Examples.single_day 4) 0 5 = Ok (0, None)
  /\ get_graph_data (mkfile_manager Examples.single_day 4) 0
     = Ok ([(-210)%float; (-210)%float; (-147.5)%float; (-85)%float],
           [0%float; 0%float; 1%float; 2%float], [0; 0; 1; 1]).
Proof.
  repeat split; reflexivity.
Qed.

(** C10: when the slice of a day is longer than [n_points_per_day] the
    extension is empty and [get_graph_data] returns the whole slice: three
    sequences longer than [n_points_per_day], nothing trimmed and nothing
    raised. *)
Theorem get_graph_data_never_truncates (fm : file_manager)
    (day_index ws0 ws1 : Z) (start : Z) (stop : option Z) :
  has_window_sizes (base_dir fm) ws0 ws1 ->
  _day_start_and_end_time_points fm day_index ws0 = Ok (start, stop) ->
  n_points_per_day fm < Py.len (enmo_slice fm start stop) ->
  Py.times 0 (n_points_per_day fm - Py.len (enmo_slice fm start stop)) = []
  /\ get_graph_data fm day_index
     = Ok (map rescale (enmo_slice fm start stop),
           anglez_slice fm start stop,
           nonwear_slice fm ws0 ws1 start stop)
  /\ n_points_per_day fm < Py.len (map rescale (enmo_slice fm start stop))
  /\ n_points_per_day fm < Py.len (anglez_slice fm start stop)
  /\ n_points_per_day fm < Py.len (nonwear_slice fm ws0 ws1 start stop).
Proof.
  intros Hws Hwin Hlong.
  split; [apply times_nonpos; lia|]. split.
  - rewrite (get_graph_data_padded fm day_index ws0 ws1 start stop Hws Hwin).
    assert (Hb : zeros_before fm start stop <= 0)
      by (unfold zeros_before, padding_count; destruct (start =? 0); lia).
    assert (Ha : zeros_after fm start stop <= 0)
      by (unfold zeros_after, padding_count; destruct (start =? 0);
          [lia | destruct stop; lia]).
    rewrite !padded_nonpos by assumption. reflexivity.
  - rewrite len_map.
    destruct (slices_same_length fm ws0 ws1 start stop) as [-> ->]. auto.
Qed.

Lemma get_graph_data_never_truncates_witness :
  has_window_sizes Examples.three_days 5 15
  /\ _day_start_and_end_time_points
       (mkfile_manager Examples.three_days 2) 0 5 = Ok (0, Some 3)
  /\ n_points_per_day (mkfile_manager Examples.three_days 2)
     < Py.len (enmo_slice (mkfile_manager Examples.three_days 2) 0 (Some 3))
  /\ get_graph_data (mkfile_manager Examples.three_days 2) 0
     = Ok ([(-147.5)%float; 40%float; (-85)%float],
           [1%float; 2%float; 3%float], [0; 1; 1]).
Proof.
  split; [exact three_days_window_sizes|]. split; [reflexivity|].
  split; [reflexivity|].
  exact (proj1 (proj2
           (get_graph_data_never_truncates
              (mkfile_manager Examples.three_days 2) 0 5 15 0 (Some 3)
              three_days_window_sizes eq_refl eq_refl))).
Defined.

(** * Further properties of the module *)

(** ** [get_midnights] on any recording *)

Lemma index_from_bounds (l : list datetime) :
  forall (k i : Z) (x : datetime),
    Py.index_from Datetime.eqb k l x = Ok i -> k <= i < k + Py.len l.
Proof.
  induction l as [|y l IH]; intros k i x H; [discriminate|].
  simpl in H. rewrite len_cons. pose proof (len_nonneg l) as Hl.
  destruct (Datetime.eqb y x).
  - injection H as <-. lia.
  - apply IH in H. lia.
Qed.


Lemma midnight_indices_count (timestamps : list datetime) :
  forall pairs,
    (forall a b, In (a, b) pairs -> In b timestamps) ->
    exists ms,
      midnight_indices timestamps pairs = Ok ms
      /\ length ms
         = length (filter (fun p => negb (day (fst p) =? day (snd p))) pairs)
      /\ Forall (fun i => 1 <= i <= Py.len timestamps) ms.
Proof.
  induction pairs as [|[a b] pairs IH]; intros Hin.
  - exists []. repeat split. constructor.
  - destruct IH as (ms & Hms & Hlen & Hall); [intros; eapply Hin; right; eauto|].
    cbn [midnight_indices filter fst snd].
    destruct (negb (day a =? day b)).
    + destruct (index_from_total timestamps 0 b) as [i Hi];
        [eapply Hin; left; eauto|].
      unfold Py.index. rewrite Hi, Hms. cbn [bind].
      exists (i + 1 :: ms). split; [reflexivity|]. split; [simpl; now rewrite Hlen|].
      constructor; [|exact Hall]. apply index_from_bounds in Hi. lia.
    + exists ms. auto.
Qed.


(** The midnights are never 0, so the test [if end:] of the day window only
    ever separates a midnight from [None]. *)
Lemma get_midnights_positive (metadata_data : MetaData) (ms : list Z) :
  get_midnights metadata_data = Ok ms -> Forall (fun i => 1 <= i) ms.
Proof.
  intros H.
  destruct (midnight_indices_count (get_time metadata_data)
              (Py.pairwise (get_time metadata_data))) as (ms' & Hms & _ & Hall).
  - intros a b Hin. apply pairwise_In in Hin. tauto.
  - unfold get_midnights in H. rewrite H in Hms. injection Hms as <-.
    eapply Forall_impl; [|exact Hall]. simpl; intros; lia.
Qed.

(** ** The day windows of a recording *)

(** The pair of boundaries that list indexing picks for a day index in
    range: a start, and the next midnight or [None] after the last one. *)
Lemma day_window_lookup (midnights : list Z) (day_index : Z) :
  in_range midnights day_index ->
  let j := Z.to_nat (if day_index <? 0
                     then day_index + (Py.len midnights + 1) else day_index) in
  exists start stop,
    Py.getitem (Py.pairwise (Some 0 :: map Some midnights ++ [None])) day_index
    = Ok (Some start, stop)
    /\ nth_error (0 :: midnights) j = Some start
    /\ match stop with
       | Some b => nth_error midnights j = Some b
       | None => j = length midnights
       end.
Proof.
  intros Hday j. unfold in_range in Hday.
  set (pairs := Py.pairwise (Some 0 :: map Some midnights ++ [None])).
  assert (Hlen : Py.len pairs = Py.len midnights + 1)
    by apply target_timepoints_length.
  assert (Hget : exists x, nth_error pairs j = Some x
                           /\ Py.getitem pairs day_index = Ok x).
  { subst j. destruct (day_index <? 0) eqn:E.
    - apply Z.ltb_lt in E. rewrite getitem_negative by lia.
      rewrite <- Hlen. apply getitem_in_range. lia.
    - apply Z.ltb_ge in E. apply getitem_in_range. lia. }
  destruct Hget as ([s e] & Hnth & Hget).
  assert (Hj : (j <= length midnights)%nat).
  { assert (Hlt : (j < length pairs)%nat) by (apply nth_error_Some; congruence).
    unfold Py.len in Hlen. lia. }
  apply pairwise_nth_error in Hnth as [Hs He].
  apply target_timepoints_nth_error in Hs, He.
  destruct s as [s|]; [|lia].
  exists s, e. split; [exact Hget|]. split; [exact Hs|].
  destruct e as [b|]; [exact He | lia].
Qed.

Lemma day_window_value (fm : file_manager) (day_index window_size : Z)
    (midnights : list Z) (start : Z) (stop : option Z) :
  get_midnights (base_dir fm) = Ok midnights ->
  Py.getitem (Py.pairwise (Some 0 :: map Some midnights ++ [None])) day_index
  = Ok (Some start, stop) ->
  _day_start_and_end_time_points fm day_index window_size
  = match stop with
    | Some b =>
        if b =? 0 then Ok (start, Some b)
        else c <- _adjust_timepoint_for_daylight_savings start b window_size ;;
             Ok (start, Some c)
    | None => Ok (start, None)
    end.
Proof.
  intros Hm Hget. unfold _day_start_and_end_time_points.
  rewrite Hm. cbn [bind]. rewrite Hget. cbn [bind].
  destruct stop as [b|]; reflexivity.
Qed.

Lemma day_window_negative (fm : file_manager) (day_index window_size : Z)
    (midnights : list Z) :
  get_midnights (base_dir fm) = Ok midnights ->
  - (Py.len midnights + 1) <= day_index < 0 ->
  _day_start_and_end_time_points fm day_index window_size
  = _day_start_and_end_time_points fm (day_index + (Py.len midnights + 1))
      window_size.
Proof.
  intros Hm Hneg. unfold _day_start_and_end_time_points.
  rewrite Hm. cbn [bind].
  pose proof (target_timepoints_length midnights) as Hlen.
  rewrite getitem_negative by (rewrite Hlen; exact Hneg).
  rewrite Hlen. reflexivity.
Qed.

(** What the day window raises: [IndexError] out of range, and within
    range only [ZeroDivisionError], for a window size of 0. *)
Lemma day_window_raise_cases (fm : file_manager) (day_index window_size : Z)
    (midnights : list Z) (e : exception) :
  get_midnights (base_dir fm) = Ok midnights ->
  _day_start_and_end_time_points fm day_index window_size = Raise e ->
  (e = IndexError /\ ~ in_range midnights day_index)
  \/ (e = ZeroDivisionError /\ window_size = 0 /\ in_range midnights day_index).
Proof.
  intros Hm Herr.
  destruct (Z_lt_le_dec day_index (- (Py.len midnights + 1))) as [Hlow|Hlow];
    [|destruct (Z_lt_le_dec day_index (Py.len midnights + 1)) as [Hhigh|Hhigh]].
  - left. split; [|unfold in_range; lia].
    unfold _day_start_and_end_time_points in Herr. rewrite Hm in Herr.
    cbn [bind] in Herr.
    rewrite getitem_out_of_range in Herr
      by (rewrite target_timepoints_length; lia).
    cbn [bind] in Herr. congruence.
  - right. assert (Hin : in_range midnights day_index) by (unfold in_range; lia).
    destruct (day_window_lookup midnights day_index Hin) as (s & stop & Hget & _ & _).
    rewrite (day_window_value fm day_index window_size midnights s stop Hm Hget)
      in Herr.
    destruct stop as [b|]; [|discriminate].
    destruct (b =? 0); [discriminate|].
    destruct (Z.eq_dec window_size 0) as [->|Hw].
    + cbn in Herr. split; [congruence | auto].
    + destruct (adjust_timepoint_total s b window_size Hw) as [c Hc].
      rewrite Hc in Herr. discriminate.
  - left. split; [|unfold in_range; lia].
    unfold _day_start_and_end_time_points in Herr. rewrite Hm in Herr.
    cbn [bind] in Herr.
    rewrite getitem_out_of_range in Herr
      by (rewrite target_timepoints_length; lia).
    cbn [bind] in Herr. congruence.
Qed.

(** X2: [_day_start_and_end_time_points] never raises the [ValueError] of its
    check [start is None]: it raises [IndexError] exactly for a day index
    outside the range of list indexing, and otherwise only
    [ZeroDivisionError], for a window size of 0. *)
Theorem day_window_errors (fm : file_manager) (day_index window_size : Z)
    (midnights : list Z) (e : exception) :
  get_midnights (base_dir fm) = Ok midnights ->
  _day_start_and_end_time_points fm day_index window_size = Raise e ->
  (e = IndexError /\ ~ in_range midnights day_index)
  \/ (e = ZeroDivisionError /\ window_size = 0 /\ in_range midnights day_index).
Proof.
  intros Hm Herr.
  exact (day_window_raise_cases fm day_index window_size midnights e Hm Herr).
Qed.

Lemma day_window_errors_witness :
  get_midnights Examples.three_days = Ok [3; 6]
  /\ _day_start_and_end_time_points (mkfile_manager Examples.three_days 4) 3 5
     = Raise IndexError
  /\ ((IndexError = IndexError /\ ~ in_range [3; 6] 3)
      \/ (IndexError = ZeroDivisionError /\ 5 = 0 /\ in_range [3; 6] 3)).
Proof.
  split; [reflexivity|]. split; [reflexivity|].
  exact (day_window_errors (mkfile_manager Examples.three_days 4) 3 5 [3; 6]
           IndexError eq_refl eq_refl).
Defined.

(** X3: for a day that is not the last one and a window size that is not 0,
    the window starts at the previous boundary ([0] or a midnight) and ends
    at the next midnight after the daylight-saving correction, while the
    window of the following day starts at that midnight itself: the
    correction moves the end of a day and never the start of the next. *)
Theorem day_window_boundaries (fm : file_manager) (day_index window_size : Z)
    (midnights : list Z) :
  get_midnights (base_dir fm) = Ok midnights ->
  window_size <> 0 ->
  0 <= day_index < Py.len midnights ->
  exists a b c next_stop,
    nth_error (0 :: midnights) (Z.to_nat day_index) = Some a
    /\ nth_error midnights (Z.to_nat day_index) = Some b
    /\ _adjust_timepoint_for_daylight_savings a b window_size = Ok c
    /\ _day_start_and_end_time_points fm day_index window_size = Ok (a, Some c)
    /\ _day_start_and_end_time_points fm (day_index + 1) window_size
       = Ok (b, next_stop).
Proof.
  intros Hm Hw Hday.
  assert (Hin : in_range midnights day_index) by (unfold in_range; lia).
  destruct (day_window_lookup midnights day_index Hin) as (a & stop & Hget & Ha & Hstop).
  cbv zeta in Ha, Hstop.
  assert (E : (day_index <? 0) = false) by (apply Z.ltb_ge; lia).
  rewrite E in Ha, Hstop.
  destruct stop as [b|]; [|unfold Py.len in Hday; lia].
  assert (Hb : 1 <= b).
  { pose proof (get_midnights_positive (base_dir fm) midnights Hm) as Hpos.
    rewrite Forall_forall in Hpos. apply Hpos. eapply nth_error_In; eauto. }
  destruct (adjust_timepoint_total a b window_size Hw) as [c Hc].
  assert (Hin' : in_range midnights (day_index + 1)) by (unfold in_range; lia).
  destruct (day_window_total fm (day_index + 1) window_size midnights Hm Hw Hin')
    as (b' & next_stop & Hnext).
  pose proof (day_window_inv fm (day_index + 1) window_size midnights b' next_stop
                Hm Hnext) as Hinv.
  cbv zeta in Hinv.
  assert (E' : (day_index + 1 <? 0) = false) by (apply Z.ltb_ge; lia).
  rewrite E' in Hinv. destruct Hinv as (_ & Hb' & _).
  replace (Z.to_nat (day_index + 1)) with (S (Z.to_nat day_index)) in Hb' by lia.
  simpl in Hb'. rewrite Hstop in Hb'. injection Hb' as <-.
  exists a, b, c, next_stop. repeat split; auto.
  rewrite (day_window_value fm day_index window_size midnights a (Some b) Hm Hget).
  replace (b =? 0) with false by (symmetry; apply Z.eqb_neq; lia).
  rewrite Hc. reflexivity.
Qed.

Lemma day_window_boundaries_witness :
  get_midnights Examples.three_days = Ok [3; 6]
  /\ 5 <> 0
  /\ 0 <= 0 < Py.len [3; 6]
  /\ exists a b c next_stop,
      nth_error (0 :: [3; 6]) (Z.to_nat 0) = Some a
      /\ nth_error [3; 6] (Z.to_nat 0) = Some b
      /\ _adjust_timepoint_for_daylight_savings a b 5 = Ok c
      /\ _day_start_and_end_time_points (mkfile_manager Examples.three_days 4) 0 5
         = Ok (a, Some c)
      /\ _day_start_and_end_time_points (mkfile_manager Examples.three_days 4)
           (0 + 1) 5
         = Ok (b, next_stop).
Proof.
  split; [reflexivity|]. split; [discriminate|].
  split; [unfold Py.len; simpl; lia|].
  exact (day_window_boundaries (mkfile_manager Examples.three_days 4) 0 5 [3; 6]
           eq_refl ltac:(discriminate) ltac:(unfold Py.len; simpl; lia)).
Defined.

(** ** More on the daylight-saving correction *)



(** X5: when the window size divides the hour into [s] samples, a day of 25
    or of 23 hours of samples is corrected to a day of 24 hours of samples. *)
Theorem adjust_timepoint_gives_24_hours (start end_ window_size s : Z) :
  0 < window_size -> 3600 = s * window_size ->
  (end_ - start + 1) / s = 25 \/ (end_ - start + 1) / s = 23 ->
  exists corrected,
    _adjust_timepoint_for_daylight_savings start end_ window_size = Ok corrected
    /\ (corrected - start + 1) / s = 24.
Proof.
  intros Hw Hs Hhours. assert (Hpos : 0 < s) by nia.
  rewrite (adjust_timepoint_whole_hours start end_ window_size s Hw Hs). cbv zeta.
  destruct Hhours as [H|H]; rewrite H; simpl; eexists; (split; [reflexivity|]).
  - replace (end_ - s - start + 1) with (end_ - start + 1 + (-1) * s) by lia.
    rewrite Z.div_add by lia. lia.
  - replace (end_ + s - start + 1) with (end_ - start + 1 + 1 * s) by lia.
    rewrite Z.div_add by lia. lia.
Qed.

Lemma adjust_timepoint_gives_24_hours_witness :
  0 < 5 /\ 3600 = 720 * 5
  /\ ((25 * 720 - 0 + 1) / 720 = 25 \/ (25 * 720 - 0 + 1) / 720 = 23)
  /\ exists corrected,
      _adjust_timepoint_for_daylight_savings 0 (25 * 720) 5 = Ok corrected
      /\ (corrected - 0 + 1) / 720 = 24.
Proof.
  split; [lia|]. split; [reflexivity|]. split; [left; reflexivity|].
  exact (adjust_timepoint_gives_24_hours 0 (25 * 720) 5 720
           ltac:(lia) eq_refl (or_introl eq_refl)).
Defined.



(** ** More on the projection of the non-wear score *)

Lemma fill_Forall {A : Type} (P : A -> Prop) (v : A) (lo hi : Z) (l : list A) :
  P v -> Forall P l -> forall k, Forall P (Py.fill k lo hi v l).
Proof.
  intros Hv Hl. induction Hl as [|x l Hx Hl IH]; intros k; simpl; constructor.
  - now destruct ((lo <=? k) && (k <? hi)).
  - apply IH.
Qed.

Lemma fill_nothing {A : Type} (v : A) (lo hi : Z) (l : list A) :
  hi <= lo -> forall k, Py.fill k lo hi v l = l.
Proof.
  intros H. induction l as [|x l IH]; intros k; simpl; [reflexivity|].
  rewrite IH. f_equal.
  destruct (Z.leb_spec lo k); simpl; [|reflexivity].
  destruct (Z.ltb_spec k hi); [lia | reflexivity].
Qed.

Lemma nonwear_loop_flags (r : Z) (indices : list Z) :
  forall nonwear : list Z,
    flags nonwear ->
    flags (fold_left
             (fun nonwear index =>
                Py.setslice nonwear (Some index) (Some (index + r)) 1)
             indices nonwear).
Proof.
  induction indices as [|i indices IH]; intros nonwear H; simpl; [exact H|].
  apply IH. unfold Py.setslice. apply fill_Forall; [right; reflexivity | exact H].
Qed.

Lemma times_flags (k : Z) : flags (Py.times 0 k).
Proof.
  unfold flags, Py.times. apply Forall_forall. intros v Hv.
  apply repeat_spec in Hv. auto.
Qed.

Lemma project_nonwear_flags_all (coarse_scores : list Z) (ratio fine_length : Z) :
  flags (project_nonwear coarse_scores ratio fine_length).
Proof.
  unfold project_nonwear. apply nonwear_loop_flags, times_flags.
Qed.

Lemma where_from_none {A : Type} (cond : A -> bool) (l : list A) :
  (forall x, In x l -> cond x = false) -> forall k, Py.where_from cond k l = [].
Proof.
  induction l as [|x l IH]; intros H k; simpl; [reflexivity|].
  rewrite (H x) by (left; reflexivity). apply IH. intros y Hy. apply H. now right.
Qed.

Lemma nonwear_loop_ratio_zero (indices : list Z) :
  Forall (fun i => 0 <= i) indices ->
  forall nonwear : list Z,
    fold_left
      (fun nonwear index => Py.setslice nonwear (Some index) (Some (index + 0)) 1)
      indices nonwear
    = nonwear.
Proof.
  induction 1 as [|i indices Hi Hall IH]; intros nonwear; simpl; [reflexivity|].
  rewrite IH. unfold Py.setslice. apply fill_nothing.
  rewrite Z.add_0_r. unfold Py.slice_bound. apply Z.le_refl.
Qed.

(** X7: whatever the scores, the ratio (negative ones included) and the
    length, every entry of the projected vector is 0 or 1. *)
Theorem project_nonwear_is_flags (coarse_scores : list Z) (ratio fine_length : Z) :
  flags (project_nonwear coarse_scores ratio fine_length)
  /\ forall k v,
      nth_error (project_nonwear coarse_scores ratio fine_length) k = Some v ->
      v = 0 \/ v = 1.
Proof.
  pose proof (project_nonwear_flags_all coarse_scores ratio fine_length) as H.
  split; [exact H|]. intros k v Hk. unfold flags in H.
  rewrite Forall_forall in H. apply H. eapply nth_error_In; eauto.
Qed.

(** X8: the projection flags nothing when the ratio is 0 (the coarse window
    is less than twice the fine one), whatever the scores, and when no
    coarse score exceeds 1, whatever the ratio: the vector is all zeros. *)
Theorem project_nonwear_all_zero (coarse_scores : list Z) (ratio fine_length : Z) :
  ratio = 0 \/ (forall score, In score coarse_scores -> score <= 1) ->
  project_nonwear coarse_scores ratio fine_length = Py.times 0 fine_length.
Proof.
  intros [-> | Hscores]; unfold project_nonwear.
  - apply nonwear_loop_ratio_zero.
    apply Forall_forall. intros i Hi. apply where_from_In in Hi.
    destruct Hi as (n & x & -> & _). lia.
  - unfold Py.np_where. rewrite where_from_none; [reflexivity|].
    intros x Hx. apply Z.ltb_ge. now apply Hscores.
Qed.

Lemma project_nonwear_all_zero_witness :
  (0 = 0 \/ (forall score, In score [0; 2; 5] -> score <= 1))
  /\ project_nonwear [0; 2; 5] 0 4 = Py.times 0 4.
Proof.
  split; [left; reflexivity|].
  exact (project_nonwear_all_zero [0; 2; 5] 0 4 (or_introl eq_refl)).
Defined.

(** ** When [get_graph_data] returns and what it raises *)

Lemma getitem_first_two {A : Type} (x y : A) (rest : list A) :
  Py.getitem (x :: y :: rest) 0 = Ok x /\ Py.getitem (x :: y :: rest) 1 = Ok y.
Proof.
  split.
  - destruct (getitem_in_range (x :: y :: rest) 0) as (z & Hz & ->).
    + rewrite !len_cons. pose proof (len_nonneg rest). lia.
    + simpl in Hz. congruence.
  - destruct (getitem_in_range (x :: y :: rest) 1) as (z & Hz & ->).
    + rewrite !len_cons. pose proof (len_nonneg rest). lia.
    + simpl in Hz. congruence.
Qed.

(** The course of [get_graph_data]: the two window sizes are read first,
    then their quotient is taken, then the day window is looked up. *)
Lemma get_graph_data_course (fm : file_manager) (day_index : Z) :
  match windowsizes (base_dir fm) with
  | ws0 :: ws1 :: _ =>
      if ws0 =? 0 then get_graph_data fm day_index = Raise ZeroDivisionError
      else
        match _day_start_and_end_time_points fm day_index ws0 with
        | Ok (start, stop) =>
            has_window_sizes (base_dir fm) ws0 ws1
            /\ get_graph_data fm day_index
               = Ok (padded (-210)%float (zeros_before fm start stop)
                       (zeros_after fm start stop)
                       (map rescale (enmo_slice fm start stop)),
                     padded 0%float (zeros_before fm start stop)
                       (zeros_after fm start stop) (anglez_slice fm start stop),
                     padded 0 (zeros_before fm start stop)
                       (zeros_after fm start stop)
                       (nonwear_slice fm ws0 ws1 start stop))
        | Raise e => get_graph_data fm day_index = Raise e
        end
  | _ => get_graph_data fm day_index = Raise IndexError
  end.
Proof.
  destruct (windowsizes (base_dir fm)) as [|ws0 [|ws1 rest]] eqn:Hws.
  - unfold get_graph_data. rewrite Hws. reflexivity.
  - unfold get_graph_data. rewrite Hws. reflexivity.
  - destruct (ws0 =? 0) eqn:E0.
    + unfold get_graph_data. rewrite Hws.
      destruct (getitem_first_two ws0 ws1 rest) as [-> ->]. cbn [bind].
      unfold floordiv. rewrite E0. reflexivity.
    + destruct (_day_start_and_end_time_points fm day_index ws0)
        as [[start stop]|e] eqn:Hwin.
      * assert (H : has_window_sizes (base_dir fm) ws0 ws1)
          by (exists rest; split; [exact Hws | now apply Z.eqb_neq]).
        split; [exact H|]. now apply get_graph_data_padded.
      * unfold get_graph_data. rewrite Hws.
        destruct (getitem_first_two ws0 ws1 rest) as [-> ->]. cbn [bind].
        unfold floordiv. rewrite E0. cbn [bind]. rewrite Hwin. reflexivity.
Qed.

(** X9: [get_graph_data] returns a result exactly when the recording holds
    at least two window sizes, the first of them is not 0, and the day index
    is within the range of list indexing, negative indices included. *)
Theorem get_graph_data_returns_iff (fm : file_manager) (day_index : Z)
    (midnights : list Z) :
  get_midnights (base_dir fm) = Ok midnights ->
  (exists result, get_graph_data fm day_index = Ok result)
  <-> (exists ws0 ws1, has_window_sizes (base_dir fm) ws0 ws1)
      /\ in_range midnights day_index.
Proof.
  intros Hm. pose proof (get_graph_data_course fm day_index) as Hc. split.
  - intros [result Hr].
    destruct (windowsizes (base_dir fm)) as [|ws0 [|ws1 rest]] eqn:Hws;
      try congruence.
    destruct (ws0 =? 0) eqn:E0; [congruence|].
    destruct (_day_start_and_end_time_points fm day_index ws0)
      as [[start stop]|e] eqn:Hwin; [|congruence].
    destruct Hc as [Hhas _]. split; [eauto|].
    destruct (Z_lt_le_dec day_index (- (Py.len midnights + 1))) as [Hlow|Hlow];
      [|destruct (Z_lt_le_dec day_index (Py.len midnights + 1)) as [Hhigh|Hhigh]].
    + exfalso. unfold _day_start_and_end_time_points in Hwin.
      rewrite Hm in Hwin. cbn [bind] in Hwin.
      rewrite getitem_out_of_range in Hwin
        by (rewrite target_timepoints_length; lia).
      discriminate.
    + unfold in_range. lia.
    + exfalso. unfold _day_start_and_end_time_points in Hwin.
      rewrite Hm in Hwin. cbn [bind] in Hwin.
      rewrite getitem_out_of_range in Hwin
        by (rewrite target_timepoints_length; lia).
      discriminate.
  - intros [(ws0 & ws1 & rest & Hws & Hw0) Hin].
    rewrite Hws in Hc. apply Z.eqb_neq in Hw0 as E0. rewrite E0 in Hc.
    destruct (day_window_total fm day_index ws0 midnights Hm Hw0 Hin)
      as (start & stop & Hwin).
    rewrite Hwin in Hc. destruct Hc as [_ Hc]. eauto.
Qed.

Lemma get_graph_data_returns_iff_witness :
  get_midnights Examples.three_days = Ok [3; 6]
  /\ ((exists result,
          get_graph_data (mkfile_manager Examples.three_days 4) (-3) = Ok result)
      <-> (exists ws0 ws1, has_window_sizes Examples.three_days ws0 ws1)
          /\ in_range [3; 6] (-3)).
Proof.
  split; [reflexivity|].
  exact (get_graph_data_returns_iff (mkfile_manager Examples.three_days 4) (-3)
           [3; 6] eq_refl).
Defined.



(** X11: a negative day index within range counts from the last day: with
    [days] day windows, [get_graph_data] returns for [day_index] in
    [[- days, -1]] what it returns for [day_index + days]. *)
Theorem get_graph_data_negative_index (fm : file_manager) (day_index : Z)
    (midnights : list Z) :
  get_midnights (base_dir fm) = Ok midnights ->
  - (Py.len midnights + 1) <= day_index < 0 ->
  get_graph_data fm day_index
  = get_graph_data fm (day_index + (Py.len midnights + 1)).
Proof.
  intros Hm Hneg.
  pose proof (get_graph_data_course fm day_index) as H1.
  pose proof (get_graph_data_course fm (day_index + (Py.len midnights + 1))) as H2.
  destruct (windowsizes (base_dir fm)) as [|ws0 [|ws1 rest]]; try congruence.
  destruct (ws0 =? 0); [congruence|].
  rewrite (day_window_negative fm day_index ws0 midnights Hm Hneg) in H1.
  destruct (_day_start_and_end_time_points fm
              (day_index + (Py.len midnights + 1)) ws0) as [[start stop]|e].
  - destruct H1 as [_ H1]. destruct H2 as [_ H2]. congruence.
  - congruence.
Qed.

Lemma get_graph_data_negative_index_witness :
  get_midnights Examples.three_days = Ok [3; 6]
  /\ - (Py.len [3; 6] + 1) <= -1 < 0
  /\ get_graph_data (mkfile_manager Examples.three_days 4) (-1)
     = get_graph_data (mkfile_manager Examples.three_days 4)
         (-1 + (Py.len [3; 6] + 1)).
Proof.
  split; [reflexivity|]. split; [unfold Py.len; simpl; lia|].
  exact (get_graph_data_negative_index (mkfile_manager Examples.three_days 4)
           (-1) [3; 6] eq_refl ltac:(unfold Py.len; simpl; lia)).
Defined.

Lemma firstn_Forall_all {A : Type} (P : A -> Prop) (l : list A) :
  Forall P l -> forall n, Forall P (firstn n l).
Proof.
  induction 1 as [|x l Hx Hl IH]; intros [|n]; simpl; constructor; auto.
Qed.

Lemma skipn_Forall_all {A : Type} (P : A -> Prop) (l : list A) :
  Forall P l -> forall n, Forall P (skipn n l).
Proof.
  induction 1 as [|x l Hx Hl IH]; intros [|n]; simpl; auto.
Qed.

Lemma getslice_Forall {A : Type} (P : A -> Prop) (l : list A)
    (start stop : option Z) :
  Forall P l -> Forall P (Py.getslice l start stop).
Proof.
  intros H. unfold Py.getslice.
  apply firstn_Forall_all, skipn_Forall_all, H.
Qed.

Lemma padded_flags (before after : Z) (l : list Z) :
  flags l -> flags (padded 0 before after l).
Proof.
  intros H. unfold padded, flags.
  rewrite !Forall_app. repeat split; [apply times_flags | exact H | apply times_flags].
Qed.

(** X12: whenever [get_graph_data] returns, for any day index, the three
    sequences have the same length, so they stay aligned sample by sample,
    and every entry of the non-wear sequence is 0 or 1. *)
Theorem get_graph_data_aligned (fm : file_manager) (day_index : Z)
    (acc ang : list float) (non_wear_list : list Z) :
  get_graph_data fm day_index = Ok (acc, ang, non_wear_list) ->
  Py.len acc = Py.len ang
  /\ Py.len ang = Py.len non_wear_list
  /\ flags non_wear_list.
Proof.
  intros Hr. pose proof (get_graph_data_course fm day_index) as Hc.
  destruct (windowsizes (base_dir fm)) as [|ws0 [|ws1 rest]]; try congruence.
  destruct (ws0 =? 0); [congruence|].
  destruct (_day_start_and_end_time_points fm day_index ws0)
    as [[start stop]|e]; [|congruence].
  destruct Hc as [_ Hc]. rewrite Hc in Hr. injection Hr as <- <- <-.
  rewrite !len_padded, len_map.
  destruct (slices_same_length fm ws0 ws1 start stop) as [-> ->].
  split; [reflexivity|]. split; [reflexivity|].
  apply padded_flags. unfold nonwear_slice. apply getslice_Forall.
  apply project_nonwear_flags_all.
Qed.

Lemma get_graph_data_aligned_witness :
  get_graph_data (mkfile_manager Examples.three_days 4) 0
  = Ok ([(-210)%float; (-147.5)%float; 40%float; (-85)%float],
        [0%float; 1%float; 2%float; 3%float], [0; 0; 1; 1])
  /\ Py.len [(-210)%float; (-147.5)%float; 40%float; (-85)%float]
     = Py.len [0%float; 1%float; 2%float; 3%float]
  /\ Py.len [0%float; 1%float; 2%float; 3%float] = Py.len [0; 0; 1; 1]
  /\ flags [0; 0; 1; 1].
Proof.
  split; [reflexivity|].
  exact (get_graph_data_aligned (mkfile_manager Examples.three_days 4) 0
           [(-210)%float; (-147.5)%float; 40%float; (-85)%float]
           [0%float; 1%float; 2%float; 3%float] [0; 0; 1; 1] eq_refl).
Defined.

(** X13: on a recording without samples [get_timezone] raises [IndexError],
    there is no midnight, and day 0 is returned as padding only:
    [n_points_per_day] samples, -210 for the magnitude and 0 for the angle
    and the non-wear flag. *)
Theorem empty_recording (fm : file_manager) (ws0 ws1 : Z) :
  metashort (base_dir fm) = [] ->
  has_window_sizes (base_dir fm) ws0 ws1 ->
  get_timezone fm = Raise IndexError
  /\ get_midnights (base_dir fm) = Ok []
  /\ get_graph_data fm 0
     = Ok (Py.times (-210)%float (n_points_per_day fm),
           Py.times 0%float (n_points_per_day fm),
           Py.times 0 (n_points_per_day fm)).
Proof.
  intros Hempty Hws.
  assert (Hm : get_midnights (base_dir fm) = Ok [])
    by (unfold get_midnights, get_time; rewrite Hempty; reflexivity).
  split; [unfold get_timezone, get_time; rewrite Hempty; reflexivity|].
  split; [exact Hm|].
  assert (Hwin : _day_start_and_end_time_points fm 0 ws0 = Ok (0, None))
    by (unfold _day_start_and_end_time_points; rewrite Hm; reflexivity).
  rewrite (get_graph_data_padded fm 0 ws0 ws1 0 None Hws Hwin).
  unfold zeros_before, zeros_after, padding_count, enmo_slice, anglez_slice,
    nonwear_slice, padded.
  rewrite Hempty. cbn [Z.eqb map].
  change (Py.getslice (@nil float) (Some 0) None) with (@nil float).
  change (Py.len (@nil float)) with 0.
  change (project_nonwear (nonwearscore (base_dir fm)) (ws1 / ws0 - 1) 0)
    with (fold_left
            (fun nonwear index =>
               Py.setslice nonwear (Some index) (Some (index + (ws1 / ws0 - 1))) 1)
            (Py.np_where (fun score => 1 <? score) (nonwearscore (base_dir fm)))
            (@nil Z)).
  assert (Hproj :
    Py.getslice
      (fold_left
         (fun nonwear index =>
            Py.setslice nonwear (Some index) (Some (index + (ws1 / ws0 - 1))) 1)
         (Py.np_where (fun score => 1 <? score) (nonwearscore (base_dir fm)))
         (@nil Z)) (Some 0) None = []).
  { pose proof (nonwear_loop_length (ws1 / ws0 - 1)
                  (Py.np_where (fun score => 1 <? score) (nonwearscore (base_dir fm)))
                  []) as Hlen.
    destruct (fold_left _ _ _); [reflexivity | discriminate]. }
  rewrite Hproj, Z.sub_0_r, !times_zero. simpl. rewrite !app_nil_r. reflexivity.
Qed.

Lemma empty_recording_witness :
  metashort (base_dir (mkfile_manager Examples.no_samples 3)) = []
  /\ has_window_sizes (base_dir (mkfile_manager Examples.no_samples 3)) 5 15
  /\ get_timezone (mkfile_manager Examples.no_samples 3) = Raise IndexError
  /\ get_midnights Examples.no_samples = Ok []
  /\ get_graph_data (mkfile_manager Examples.no_samples 3) 0
     = Ok ([(-210)%float; (-210)%float; (-210)%float],
           [0%float; 0%float; 0%float], [0; 0; 0]).
Proof.
  assert (Hws : has_window_sizes (base_dir (mkfile_manager Examples.no_samples 3)) 5 15)
    by (exists [3600]; split; [reflexivity | discriminate]).
  split; [reflexivity|]. split; [exact Hws|].
  exact (empty_recording (mkfile_manager Examples.no_samples 3) 5 15 eq_refl Hws).
Defined.

(** ** [_get_data_file] *)

Lemma get_data_file_value (data_sub_dir : list String.string) :
  _get_data_file data_sub_dir
  = match glob_RData data_sub_dir with
    | [file] => Ok file
    | _ => Raise ValueError
    end.
Proof.
  unfold _get_data_file.
  destruct (glob_RData data_sub_dir) as [|file [|other rest]]; try reflexivity.
  rewrite !len_cons. pose proof (len_nonneg rest) as Hrest.
  replace (Py.len rest + 1 + 1 =? 1) with false
    by (symmetry; apply Z.eqb_neq; lia).
  reflexivity.
Qed.

Lemma filter_Permutation {A : Type} (f : A -> bool) (l l' : list A) :
  Permutation l l' -> Permutation (filter f l) (filter f l').
Proof.
  induction 1 as [|x l l' H IH|x y l|l l' l'' H1 IH1 H2 IH2]; simpl.
  - constructor.
  - destruct (f x); [constructor|]; exact IH.
  - destruct (f x), (f y); try apply Permutation_refl. constructor.
  - eapply Permutation_trans; eauto.
Qed.

(** X14: the result of [_get_data_file] does not depend on the order in which
    the entries of the directory are listed. *)
Theorem get_data_file_any_order (data_sub_dir listing : list String.string) :
  Permutation data_sub_dir listing ->
  _get_data_file data_sub_dir = _get_data_file listing.
Proof.
  intros Hperm. rewrite !get_data_file_value.
  apply (filter_Permutation (ends_with ".RData"%string)) in Hperm.
  fold (glob_RData data_sub_dir) (glob_RData listing) in Hperm.
  pose proof (Permutation_length Hperm) as Hlen.
  destruct (glob_RData data_sub_dir) as [|file [|other rest]].
  - destruct (glob_RData listing); [reflexivity | discriminate].
  - apply Permutation_length_1_inv in Hperm. now rewrite Hperm.
  - destruct (glob_RData listing) as [|file' [|other' rest']];
      [discriminate | discriminate | reflexivity].
Qed.

Lemma get_data_file_any_order_witness :
  Permutation Examples.one_data_file (rev Examples.one_data_file)
  /\ _get_data_file Examples.one_data_file
     = _get_data_file (rev Examples.one_data_file).
Proof.
  assert (H : Permutation Examples.one_data_file (rev Examples.one_data_file))
    by apply Permutation_rev.
  split; [exact H|].
  exact (get_data_file_any_order Examples.one_data_file
           (rev Examples.one_data_file) H).
Defined.

(** X15: in a directory (no name twice) [_get_data_file] returns [file]
    exactly when [file] is an entry that ends with [.RData] and no other
    entry does; with no such entry, or several, it raises [ValueError]. *)
Theorem get_data_file_exactly_one (data_sub_dir : list String.string)
    (file : String.string) :
  NoDup data_sub_dir ->
  (_get_data_file data_sub_dir = Ok file <->
   In file data_sub_dir
   /\ ends_with ".RData"%string file = true
   /\ forall other,
       In other data_sub_dir -> ends_with ".RData"%string other = true ->
       other = file)
  /\ ((forall found, _get_data_file data_sub_dir <> Ok found) ->
      _get_data_file data_sub_dir = Raise ValueError).
Proof.
  intros Hnodup. rewrite get_data_file_value.
  pose proof (NoDup_filter (ends_with ".RData"%string) Hnodup) as Hnd.
  fold (glob_RData data_sub_dir) in Hnd.
  assert (Hin : forall x, In x (glob_RData data_sub_dir) <->
                          In x data_sub_dir /\ ends_with ".RData"%string x = true)
    by (intros x; apply filter_In).
  destruct (glob_RData data_sub_dir) as [|first [|second rest]].
  - split; [|reflexivity]. split; [discriminate|].
    intros (Hf & Hs & _). destruct (proj2 (Hin file) (conj Hf Hs)).
  - split; [|intros H; exfalso; apply (H first); reflexivity]. split.
    + intros Heq. injection Heq as ->.
      destruct (proj1 (Hin file) (or_introl eq_refl)) as [Hf Hs].
      repeat split; auto. intros other Ho Hso.
      destruct (proj2 (Hin other) (conj Ho Hso)) as [E|[]]. now symmetry.
    + intros (Hf & Hs & Huniq).
      destruct (proj1 (Hin first) (or_introl eq_refl)) as [H1 H2].
      f_equal. now apply Huniq.
  - split; [|reflexivity]. split; [discriminate|].
    intros (Hf & Hs & Huniq). exfalso.
    destruct (proj1 (Hin first) (or_introl eq_refl)) as [H1 H2].
    destruct (proj1 (Hin second) (or_intror (or_introl eq_refl))) as [H3 H4].
    assert (first = second) by (rewrite (Huniq first H1 H2); symmetry; now apply Huniq).
    subst second. inversion Hnd as [|? ? Hnotin _]. apply Hnotin. now left.
Qed.

Lemma get_data_file_exactly_one_witness :
  NoDup Examples.one_data_file
  /\ In "meta_subject.RData"%string Examples.one_data_file
  /\ ends_with ".RData"%string "meta_subject.RData"%string = true
  /\ forall other,
      In other Examples.one_data_file ->
      ends_with ".RData"%string other = true ->
      other = "meta_subject.RData"%string.
Proof.
  assert (H : NoDup Examples.one_data_file).
  { unfold Examples.one_data_file.
    repeat constructor; simpl; intros Hin;
      repeat (destruct Hin as [Hin|Hin]; [discriminate|]); exact Hin. }
  split; [exact H|].
  exact (proj1 (proj1 (get_data_file_exactly_one Examples.one_data_file
                         "meta_subject.RData"%string H)) eq_refl).
Defined.

(** ** The day windows tile the recording *)

Lemma firstn_skipn_app {A : Type} (p q : nat) :
  forall l : list A, firstn p l ++ firstn q (skipn p l) = firstn (p + q) l.
Proof.
  induction p as [|p IH]; intros l; [reflexivity|].
  destruct l as [|x l]; simpl.
  - now rewrite firstn_nil.
  - now rewrite IH.
Qed.

Lemma skipn_skipn_add {A : Type} (p q : nat) :
  forall l : list A, skipn q (skipn p l) = skipn (p + q) l.
Proof.
  induction p as [|p IH]; intros l; [reflexivity|].
  destruct l as [|x l]; simpl; [now rewrite skipn_nil | apply IH].
Qed.

(** Two slices that meet at [b] make up the slice to the end. *)
Lemma getslice_app_end {A : Type} (l : list A) (a b : Z) :
  0 <= a <= b ->
  Py.getslice l (Some a) (Some b) ++ Py.getslice l (Some b) None
  = Py.getslice l (Some a) None.
Proof.
  intros H. unfold Py.getslice, Py.slice_bound.
  assert (Ea : (a <? 0) = false) by (apply Z.ltb_ge; lia).
  assert (Eb : (b <? 0) = false) by (apply Z.ltb_ge; lia).
  rewrite Ea, Eb. unfold Py.len.
  set (n := length l).
  set (p := Z.to_nat (Z.min a (Z.of_nat n))).
  set (q := Z.to_nat (Z.min b (Z.of_nat n))).
  assert (Hpq : (p <= q <= n)%nat) by (subst p q; lia).
  replace (Z.to_nat (Z.min b (Z.of_nat n) - Z.min a (Z.of_nat n)))
    with (q - p)%nat by (subst p q; lia).
  replace (Z.to_nat (Z.of_nat n - Z.min b (Z.of_nat n)))
    with (n - q)%nat by (subst q; lia).
  replace (Z.to_nat (Z.of_nat n - Z.min a (Z.of_nat n)))
    with (n - p)%nat by (subst p; lia).
  replace (skipn q l) with (skipn (q - p) (skipn p l))
    by (rewrite skipn_skipn_add; f_equal; lia).
  rewrite firstn_skipn_app. f_equal. lia.
Qed.

Lemma getslice_whole {A : Type} (l : list A) :
  Py.getslice l (Some 0) None = l.
Proof.
  unfold Py.getslice, Py.slice_bound, Py.len.
  replace (0 <? 0) with false by reflexivity.
  replace (Z.to_nat (Z.min 0 (Z.of_nat (length l)))) with 0%nat by lia.
  replace (Z.to_nat (Z.of_nat (length l) - Z.min 0 (Z.of_nat (length l))))
    with (length l) by lia.
  apply firstn_all.
Qed.

Lemma sorted_neighbours (l : list Z) :
  StronglySorted Z.lt l ->
  forall (i : nat) (a b : Z),
    nth_error l i = Some a -> nth_error l (S i) = Some b -> a < b.
Proof.
  induction 1 as [|x l Hs IH Hx]; intros i a b Ha Hb.
  - destruct i; discriminate.
  - destruct i as [|i].
    + simpl in Ha, Hb. injection Ha as <-.
      rewrite Forall_forall in Hx. apply Hx. destruct l; [discriminate|].
      simpl in Hb. injection Hb as <-. now left.
    + apply (IH i a b Ha Hb).
Qed.

(** The slices of the last [days] windows make up the recording from the
    start of the first of them, when no end is moved by the correction. *)
Lemma day_slices_suffix (fm : file_manager) (window_size : Z) (midnights : list Z) :
  get_midnights (base_dir fm) = Ok midnights ->
  StronglySorted Z.lt (0 :: midnights) ->
  (forall k a b,
      nth_error (0 :: midnights) k = Some a -> nth_error midnights k = Some b ->
      _adjust_timepoint_for_daylight_savings a b window_size = Ok b) ->
  forall (days k : nat),
    (k + S days = S (length midnights))%nat ->
    exists a slices,
      nth_error (0 :: midnights) k = Some a
      /\ day_slices_from fm window_size (Z.of_nat k) (S days) = Ok slices
      /\ concat slices = enmo_slice fm a None.
Proof.
  intros Hm Hsorted Hno. induction days as [|days IH]; intros k Hk.
  - assert (Hin : in_range midnights (Z.of_nat k))
      by (unfold in_range, Py.len; lia).
    destruct (day_window_lookup midnights (Z.of_nat k) Hin)
      as (a & stop & Hget & Ha & Hstop).
    cbv zeta in Ha, Hstop.
    assert (E : (Z.of_nat k <? 0) = false) by (apply Z.ltb_ge; lia).
    rewrite E, Nat2Z.id in Ha, Hstop.
    destruct stop as [b|].
    { exfalso. assert ((k < length midnights)%nat)
        by (apply nth_error_Some; congruence). lia. }
    exists a, [enmo_slice fm a None]. split; [exact Ha|]. split.
    + cbn [day_slices_from].
      rewrite (day_window_value fm (Z.of_nat k) window_size midnights a None Hm Hget).
      reflexivity.
    + simpl. apply app_nil_r.
  - assert (Hin : in_range midnights (Z.of_nat k))
      by (unfold in_range, Py.len; lia).
    destruct (day_window_lookup midnights (Z.of_nat k) Hin)
      as (a & stop & Hget & Ha & Hstop).
    cbv zeta in Ha, Hstop.
    assert (E : (Z.of_nat k <? 0) = false) by (apply Z.ltb_ge; lia).
    rewrite E, Nat2Z.id in Ha, Hstop.
    destruct stop as [b|]; [|lia].
    destruct (IH (S k)) as (b' & slices & Hb' & Hrest & Hconcat); [lia|].
    simpl in Hb'. rewrite Hstop in Hb'. injection Hb' as <-.
    assert (Hab : a < b)
      by (apply (sorted_neighbours (0 :: midnights) Hsorted k a b Ha); exact Hstop).
    assert (H0a : 0 <= a).
    { destruct k as [|k]; [simpl in Ha; injection Ha as <-; lia|].
      inversion Hsorted as [|? ? _ Hall]. rewrite Forall_forall in Hall.
      simpl in Ha. apply nth_error_In in Ha. apply Hall in Ha. lia. }
    exists a, (enmo_slice fm a (Some b) :: slices). split; [exact Ha|]. split.
    + change (day_slices_from fm window_size (Z.of_nat k) (S (S days)))
        with ('(start, stop) <-
                _day_start_and_end_time_points fm (Z.of_nat k) window_size ;;
              rest <- day_slices_from fm window_size (Z.of_nat k + 1) (S days) ;;
              Ok (enmo_slice fm start stop :: rest)).
      rewrite (day_window_value fm (Z.of_nat k) window_size midnights a (Some b)
                 Hm Hget).
      replace (b =? 0) with false by (symmetry; apply Z.eqb_neq; lia).
      rewrite (Hno k a b Ha Hstop). cbn [bind].
      replace (Z.of_nat k + 1) with (Z.of_nat (S k)) by lia.
      rewrite Hrest. reflexivity.
    + simpl. rewrite Hconcat. unfold enmo_slice. apply getslice_app_end. lia.
Qed.

(** X16: on pairwise distinct timestamps, when the daylight-saving correction
    leaves the end of every day where the midnight is, the slices of the day
    windows, taken in order from day 0 to the last day, make up the whole
    magnitude column: every sample belongs to exactly one day. *)
Theorem day_slices_tile (fm : file_manager) (window_size : Z) (midnights : list Z) :
  pairwise_distinct (get_time (base_dir fm)) ->
  get_midnights (base_dir fm) = Ok midnights ->
  (forall k a b,
      nth_error (0 :: midnights) k = Some a -> nth_error midnights k = Some b ->
      _adjust_timepoint_for_daylight_savings a b window_size = Ok b) ->
  exists slices,
    day_slices_from fm window_size 0 (S (length midnights)) = Ok slices
    /\ length slices = S (length midnights)
    /\ concat slices = map ENMO (metashort (base_dir fm)).
Proof.
  intros Hd Hm Hno.
  assert (Hsorted : StronglySorted Z.lt (0 :: midnights)).
  { pose proof (midnight_indices_suffix (get_time (base_dir fm)) [] Hd) as H.
    simpl app in H. change (Py.len []) with 0 in H.
    unfold get_midnights in Hm. rewrite Hm in H. injection H as ->.
    constructor.
    - apply succ_sorted, day_changes_sorted.
    - rewrite Forall_map. eapply Forall_impl; [|apply day_changes_above].
      simpl; intros; lia. }
  destruct (day_slices_suffix fm window_size midnights Hm Hsorted Hno
              (length midnights) 0%nat eq_refl)
    as (a & slices & Ha & Hslices & Hconcat).
  simpl in Ha. injection Ha as <-.
  exists slices. split; [exact Hslices|]. split.
  - clear Hconcat. revert Hslices. generalize (Z.of_nat 0).
    generalize (S (length midnights)). intros n. revert slices.
    induction n as [|n IH]; intros slices z H.
    + injection H as <-. reflexivity.
    + cbn [day_slices_from] in H.
      apply bind_Ok in H as ([start stop] & _ & H).
      apply bind_Ok in H as (rest & Hrest & H).
      injection H as <-. simpl. f_equal. eapply IH, Hrest.
  - rewrite Hconcat. unfold enmo_slice. apply getslice_whole.
Qed.

Lemma day_slices_tile_witness :
  pairwise_distinct (get_time Examples.three_days)
  /\ get_midnights Examples.three_days = Ok [3; 6]
  /\ exists slices,
      day_slices_from (mkfile_manager Examples.three_days 4) 5 0 3 = Ok slices
      /\ length slices = 3%nat
      /\ concat slices = map ENMO (metashort Examples.three_days).
Proof.
  assert (Hd : pairwise_distinct (get_time Examples.three_days))
    by (apply all_distinct_sound; reflexivity).
  split; [exact Hd|]. split; [reflexivity|].
  refine (day_slices_tile (mkfile_manager Examples.three_days 4) 5 [3; 6]
            Hd eq_refl _).
  intros k a b Ha Hb.
  destruct k as [|[|k]]; simpl in Ha, Hb.
  - injection Ha as <-. injection Hb as <-. reflexivity.
  - injection Ha as <-. injection Hb as <-. reflexivity.
  - destruct k; discriminate.
Defined.
